(** * BaseCdcService: a shallow embedding of the change-data-capture engine

    Source: [src/services/base-cdc.service.ts] and
    [src/interfaces/cdc.interface.ts].

    The service is a class with six mutable fields that talks to three
    outside parties: the store ([model.watch], [changeStream.close]), the
    registered handler objects, and the timer of the host ([setTimeout]).
    The embedding keeps the fields in a record, threads it through a small
    state-and-exception monad, and records every call that leaves the
    service (store calls, callbacks, timers, log lines) in the list of
    effects a computation returns.

    Conventions of the embedding:
    - an optional property that is absent (or holds [undefined]/[null]) is
      [None]; JavaScript truthiness is written out where the source tests it;
    - numbers are integers ([Z]);
    - a handler object is known by its identity ([HandlerId]); what its
      callbacks do is given by an environment, and a callback may call
      [unregisterHandler] on the service before it returns or throws;
      callbacks that register further handlers in mid-dispatch are outside
      the model;
    - a signal ([change], [error], [close], a public call) is handled to
      completion before the next one by [step]; the suspension points that
      are modelled are the reconnect delay, whose continuation runs when
      the [TimerFire] signal arrives, and the [await]s of the dispatch
      of a notification: [move] runs a dispatch piece by piece and lets
      other notifications and signals in between the pieces. *)

From Stdlib Require Import ZArith Lia.
From stdpp Require Import base list strings.

Local Open Scope Z_scope.
Local Open Scope string_scope.
Local Open Scope list_scope.

(** ** Data model (cdc.interface.ts) *)

Inductive ChangeOperationType :=
| INSERT | UPDATE | REPLACE | DELETE
| DROP | RENAME | DROP_DATABASE | INVALIDATE
| UNRECOGNISED (raw : string).

(** The resume token is opaque to the service; the tests build it as an
    object with a [_data] string. *)
Record ResumeToken := { _data : string }.

Record UpdateDescription := {
  updatedFields : list (string * string);
  removedFields : list string
}.

Record Namespace := { db : string; coll : string }.

Record CdcChangeEvent := {
  operationType : ChangeOperationType;
  documentKey : option string;
  fullDocument : option string;
  updateDescription : option UpdateDescription;
  ns : option Namespace;
  clusterTime : option Z
}.

(** The raw notification of the driver ([change: any]). *)
Record RawChange := {
  raw_id : option ResumeToken;
  raw_operationType : ChangeOperationType;
  raw_documentKey : option string;
  raw_fullDocument : option string;
  raw_updateDescription : option UpdateDescription;
  raw_ns : option Namespace;
  raw_clusterTime : option Z
}.

Inductive FullDocumentMode :=
| FD_default | FD_updateLookup | FD_whenAvailable | FD_required.

(** The driver's [ChangeStreamOptions]: the properties that [start] reads or
    writes. The object handed to [model.watch] has the same shape. *)
Record ChangeStreamOptions := {
  cso_fullDocument : option FullDocumentMode;
  cso_resumeAfter : option ResumeToken;
  cso_startAtOperationTime : option Z;
  cso_batchSize : option Z;
  cso_maxAwaitTimeMS : option Z
}.

Record CdcServiceOptions := {
  changeStreamOptions : option ChangeStreamOptions;
  opt_fullDocument : option FullDocumentMode;
  resumeAfter : option ResumeToken;
  startAtOperationTime : option Z;
  pipeline : option (list string);
  batchSize : option Z;
  maxAwaitTimeMS : option Z;
  autoReconnect : option bool;
  reconnectDelay : option Z;
  maxReconnectAttempts : option Z
}.

Definition Error := string.
Definition HandlerId := nat.
Definition StreamId := nat.

(** What a callback can learn from the service through its public
    getters, [isWatching()] and [getResumeToken()]. *)
Record PublicView := {
  view_watching : bool;
  view_resumeToken : option ResumeToken
}.

(** What a callback does: the handlers it unregisters from the service, and
    whether it then throws (or rejects). *)
Record Reaction := {
  unregisters : list HandlerId;
  throws : option Error
}.

Definition quiet : Reaction := {| unregisters := []; throws := None |}.

Record CdcEventHandler := {
  onEvent : CdcChangeEvent -> PublicView -> Reaction;
  onError : option (Error -> PublicView -> Reaction);
  onClose : option (PublicView -> Reaction)
}.

(** The five overridable hooks of the class. *)
Record Hooks := {
  handleInsert : CdcChangeEvent -> PublicView -> Reaction;
  handleUpdate : CdcChangeEvent -> PublicView -> Reaction;
  handleReplace : CdcChangeEvent -> PublicView -> Reaction;
  handleDelete : CdcChangeEvent -> PublicView -> Reaction;
  handleOther : CdcChangeEvent -> PublicView -> Reaction
}.

(** The hooks of [BaseCdcService] itself only write a debug line. *)
Definition baseHooks : Hooks := {|
  handleInsert := fun _ _ => quiet;
  handleUpdate := fun _ _ => quiet;
  handleReplace := fun _ _ => quiet;
  handleDelete := fun _ _ => quiet;
  handleOther := fun _ _ => quiet
|}.

Inductive HookKind := HInsert | HUpdate | HReplace | HDelete | HOther.

(** ** The service and its surroundings *)

Record BaseCdcService := {
  changeStream : option StreamId;
  handlers : list HandlerId;
  watching : bool;
  resumeToken : option ResumeToken;
  reconnectAttempts : Z;
  cdcOptions : CdcServiceOptions
}.

(** The host: what the next calls of [model.watch] and [close] will do
    ([Some e]: throw [e]; when the list is used up they succeed), the
    identity of the next stream object, and the number of reconnect delays
    that are running. *)
Record Host := {
  watchOutcomes : list (option Error);
  closeOutcomes : list (option Error);
  nextStream : StreamId;
  timers : nat
}.

Record World := { svc : BaseCdcService; host : Host }.

Inductive LogLevel := LLog | LWarn | LError | LDebug.

Inductive Effect :=
| EWatch (stages : list string) (req : ChangeStreamOptions)
| ECloseStream (sid : StreamId)
| EHook (k : HookKind) (ev : CdcChangeEvent) (v : PublicView)
| EOnEvent (h : HandlerId) (ev : CdcChangeEvent) (v : PublicView)
| EOnError (h : HandlerId) (err : Error) (v : PublicView)
| EOnClose (h : HandlerId) (v : PublicView)
| ESetTimeout (delay : Z)
| ELogger (lvl : LogLevel) (msg : string)
| ELogAttempt (attempt : Z) (limit : option Z).

(** ** The monad: state, exceptions, and the effects performed *)

Inductive Res (A : Type) :=
| Ok (a : A)
| Throw (e : Error).
Arguments Ok {A} a.
Arguments Throw {A} e.

Record Run (A : Type) := MkRun {
  result : Res A;
  final : World;
  effects : list Effect
}.
Arguments MkRun {A} _ _ _.
Arguments result {A} _.
Arguments final {A} _.
Arguments effects {A} _.

Definition M (A : Type) : Type := World -> Run A.

Definition ret {A} (a : A) : M A := fun w => MkRun (Ok a) w [].

Definition throw {A} (e : Error) : M A := fun w => MkRun (Throw e) w [].

Definition bind {A B} (m : M A) (k : A -> M B) : M B := fun w =>
  match m w with
  | MkRun (Ok a) w1 es1 =>
      match k a w1 with
      | MkRun r w2 es2 => MkRun r w2 (es1 ++ es2)
      end
  | MkRun (Throw e) w1 es1 => MkRun (Throw e) w1 es1
  end.

(** [try { m } catch (e) { h e }] *)
Definition try_catch {A} (m : M A) (h : Error -> M A) : M A := fun w =>
  match m w with
  | MkRun (Ok a) w1 es1 => MkRun (Ok a) w1 es1
  | MkRun (Throw e) w1 es1 =>
      match h e w1 with
      | MkRun r w2 es2 => MkRun r w2 (es1 ++ es2)
      end
  end.

Declare Scope cdc_scope.
Delimit Scope cdc_scope with cdc.
Notation "x <- m ;; k" := (bind m (fun x => k))
  (at level 100, m at next level, right associativity) : cdc_scope.
Notation "m ;; k" := (bind m (fun _ => k))
  (at level 100, right associativity) : cdc_scope.
Local Open Scope cdc_scope.

Definition emit (e : Effect) : M unit := fun w => MkRun (Ok tt) w [e].

Definition logger (lvl : LogLevel) (msg : string) : M unit :=
  emit (ELogger lvl msg).

Definition get_svc : M BaseCdcService := fun w => MkRun (Ok (svc w)) w [].

Definition modify_svc (f : BaseCdcService -> BaseCdcService) : M unit :=
  fun w => MkRun (Ok tt) {| svc := f (svc w); host := host w |} [].

Definition get_host : M Host := fun w => MkRun (Ok (host w)) w [].

Definition modify_host (f : Host -> Host) : M unit :=
  fun w => MkRun (Ok tt) {| svc := svc w; host := f (host w) |} [].

(** Field updates of the service. *)
Definition set_changeStream (x : option StreamId) (s : BaseCdcService) :=
  {| changeStream := x; handlers := handlers s; watching := watching s;
     resumeToken := resumeToken s; reconnectAttempts := reconnectAttempts s;
     cdcOptions := cdcOptions s |}.
Definition set_handlers (x : list HandlerId) (s : BaseCdcService) :=
  {| changeStream := changeStream s; handlers := x; watching := watching s;
     resumeToken := resumeToken s; reconnectAttempts := reconnectAttempts s;
     cdcOptions := cdcOptions s |}.
Definition set_watching (x : bool) (s : BaseCdcService) :=
  {| changeStream := changeStream s; handlers := handlers s; watching := x;
     resumeToken := resumeToken s; reconnectAttempts := reconnectAttempts s;
     cdcOptions := cdcOptions s |}.
Definition set_resumeToken (x : option ResumeToken) (s : BaseCdcService) :=
  {| changeStream := changeStream s; handlers := handlers s;
     watching := watching s; resumeToken := x;
     reconnectAttempts := reconnectAttempts s; cdcOptions := cdcOptions s |}.
Definition set_reconnectAttempts (x : Z) (s : BaseCdcService) :=
  {| changeStream := changeStream s; handlers := handlers s;
     watching := watching s; resumeToken := resumeToken s;
     reconnectAttempts := x; cdcOptions := cdcOptions s |}.
Definition set_cdcOptions (x : CdcServiceOptions) (s : BaseCdcService) :=
  {| changeStream := changeStream s; handlers := handlers s;
     watching := watching s; resumeToken := resumeToken s;
     reconnectAttempts := reconnectAttempts s; cdcOptions := x |}.

Definition set_resumeAfter (x : option ResumeToken) (o : CdcServiceOptions) :=
  {| changeStreamOptions := changeStreamOptions o;
     opt_fullDocument := opt_fullDocument o;
     resumeAfter := x;
     startAtOperationTime := startAtOperationTime o;
     pipeline := pipeline o;
     batchSize := batchSize o;
     maxAwaitTimeMS := maxAwaitTimeMS o;
     autoReconnect := autoReconnect o;
     reconnectDelay := reconnectDelay o;
     maxReconnectAttempts := maxReconnectAttempts o |}.

(** JavaScript truthiness of an optional number: present and not zero. *)
Definition truthyZ (o : option Z) : option Z :=
  match o with
  | Some n => if Z.eqb n 0 then None else Some n
  | None => None
  end.

(** [o || d] for an optional number. *)
Definition orZ (o : option Z) (d : Z) : Z := default d (truthyZ o).

Definition orElse {A} (a b : option A) : option A :=
  match a with
  | Some x => Some x
  | None => b
  end.

(** ** Construction *)

(** [applyDefaultOptions]: the four defaults, overridden by the properties
    the caller supplied. The result is a fresh object. (A property that the
    caller supplies with the value [undefined] would override its default
    too; options objects of that kind are not represented.) *)
Definition applyDefaultOptions (s : BaseCdcService) : BaseCdcService :=
  let o := cdcOptions s in
  set_cdcOptions
    {| changeStreamOptions := changeStreamOptions o;
       opt_fullDocument := orElse (opt_fullDocument o) (Some FD_updateLookup);
       resumeAfter := resumeAfter o;
       startAtOperationTime := startAtOperationTime o;
       pipeline := pipeline o;
       batchSize := batchSize o;
       maxAwaitTimeMS := maxAwaitTimeMS o;
       autoReconnect := orElse (autoReconnect o) (Some true);
       reconnectDelay := orElse (reconnectDelay o) (Some 1000);
       maxReconnectAttempts := orElse (maxReconnectAttempts o) (Some 5) |}
    s.

Definition noOptions : CdcServiceOptions :=
  {| changeStreamOptions := None; opt_fullDocument := None;
     resumeAfter := None; startAtOperationTime := None; pipeline := None;
     batchSize := None; maxAwaitTimeMS := None; autoReconnect := None;
     reconnectDelay := None; maxReconnectAttempts := None |}.

Definition constructor (options : CdcServiceOptions) : BaseCdcService :=
  applyDefaultOptions
    {| changeStream := None; handlers := []; watching := false;
       resumeToken := None; reconnectAttempts := 0; cdcOptions := options |}.

Definition newHost (watches closes : list (option Error)) : Host :=
  {| watchOutcomes := watches; closeOutcomes := closes;
     nextStream := 0%nat; timers := 0%nat |}.

Definition newWorld (options : CdcServiceOptions)
    (watches closes : list (option Error)) : World :=
  {| svc := constructor options; host := newHost watches closes |}.

(** ** Getters *)

Definition isWatching (w : World) : bool := watching (svc w).

Definition getResumeToken (w : World) : option ResumeToken :=
  resumeToken (svc w).

Definition public_view (w : World) : PublicView :=
  {| view_watching := isWatching w; view_resumeToken := getResumeToken w |}.

Definition get_view : M PublicView :=
  fun w => MkRun (Ok (public_view w)) w [].

(** ** The handler registry *)

(** [Array.prototype.indexOf]: the first position that holds [h]. *)
Definition indexOf (h : HandlerId) (l : list HandlerId) : option nat :=
  fst <$> list_find (fun x => x = h) l.

Definition registerHandler (handler : HandlerId) : M unit :=
  s <- get_svc ;;
  if decide (handler ∈ handlers s) then ret tt
  else
    modify_svc (fun s => set_handlers (handlers s ++ [handler]) s) ;;
    logger LDebug "Event handler registered".

Definition unregisterHandler (handler : HandlerId) : M unit :=
  s <- get_svc ;;
  match indexOf handler (handlers s) with
  | Some index =>
      modify_svc (fun s => set_handlers (delete index (handlers s)) s) ;;
      logger LDebug "Event handler unregistered"
  | None => ret tt
  end.

(** ** The store *)

Definition next_watch (h : Host) : Host :=
  {| watchOutcomes := tail (watchOutcomes h);
     closeOutcomes := closeOutcomes h;
     nextStream := nextStream h; timers := timers h |}.

Definition next_close (h : Host) : Host :=
  {| watchOutcomes := watchOutcomes h;
     closeOutcomes := tail (closeOutcomes h);
     nextStream := nextStream h; timers := timers h |}.

Definition fresh_stream (h : Host) : Host :=
  {| watchOutcomes := watchOutcomes h; closeOutcomes := closeOutcomes h;
     nextStream := S (nextStream h); timers := timers h |}.

Definition set_timers (n : nat) (h : Host) : Host :=
  {| watchOutcomes := watchOutcomes h; closeOutcomes := closeOutcomes h;
     nextStream := nextStream h; timers := n |}.

(** [this.model.watch(pipeline, changeStreamOptions)] *)
Definition model_watch (stages : list string) (req : ChangeStreamOptions)
    : M StreamId :=
  emit (EWatch stages req) ;;
  h <- get_host ;;
  modify_host next_watch ;;
  match head (watchOutcomes h) with
  | Some (Some e) => throw e
  | _ => modify_host fresh_stream ;; ret (nextStream h)
  end.

(** [this.changeStream.close()] *)
Definition stream_close (sid : StreamId) : M unit :=
  emit (ECloseStream sid) ;;
  h <- get_host ;;
  modify_host next_close ;;
  match head (closeOutcomes h) with
  | Some (Some e) => throw e
  | _ => ret tt
  end.

(** ** start and stop *)

Definition emptyChangeStreamOptions : ChangeStreamOptions :=
  {| cso_fullDocument := None; cso_resumeAfter := None;
     cso_startAtOperationTime := None; cso_batchSize := None;
     cso_maxAwaitTimeMS := None |}.

(** The options object [start] builds: [fullDocument] first, the
    caller's [changeStreamOptions] spread over it, then the four guarded
    assignments. Each guard is a truthiness test, [if (x)]: a resume
    token is an object and passes when it is there; of the three numbers,
    one that is there and is 0 does not pass and is not assigned. *)
Definition buildChangeStreamOptions (o : CdcServiceOptions)
    : ChangeStreamOptions :=
  let spread := default emptyChangeStreamOptions (changeStreamOptions o) in
  {| cso_fullDocument := orElse (cso_fullDocument spread) (opt_fullDocument o);
     cso_resumeAfter := orElse (resumeAfter o) (cso_resumeAfter spread);
     cso_startAtOperationTime :=
       orElse (truthyZ (startAtOperationTime o))
         (cso_startAtOperationTime spread);
     cso_batchSize := orElse (truthyZ (batchSize o)) (cso_batchSize spread);
     cso_maxAwaitTimeMS :=
       orElse (truthyZ (maxAwaitTimeMS o)) (cso_maxAwaitTimeMS spread) |}.

Definition start : M unit :=
  s <- get_svc ;;
  if watching s then logger LWarn "CDC service is already watching"
  else
    try_catch
      (let changeStreamOptions := buildChangeStreamOptions (cdcOptions s) in
       let pipeline := default [] (pipeline (cdcOptions s)) in
       sid <- model_watch pipeline changeStreamOptions ;;
       modify_svc (set_changeStream (Some sid)) ;;
       modify_svc (set_watching true) ;;
       modify_svc (set_reconnectAttempts 0) ;;
       logger LLog "CDC service started successfully")
      (fun error =>
         logger LError "Failed to start CDC service" ;;
         throw error).

Definition stop : M unit :=
  s <- get_svc ;;
  if negb (watching s) then logger LWarn "CDC service is not watching"
  else
    try_catch
      (match changeStream s with
       | Some sid =>
           stream_close sid ;;
           modify_svc (set_changeStream None)
       | None => ret tt
       end ;;
       modify_svc (set_watching false) ;;
       logger LLog "CDC service stopped successfully")
      (fun error =>
         logger LError "Failed to stop CDC service" ;;
         throw error).

Definition onModuleDestroy : M unit := stop.

(** ** Reconnection *)

Definition shouldReconnect (s : BaseCdcService) : bool :=
  let maxAttempts := orZ (maxReconnectAttempts (cdcOptions s)) 0 in
  Z.eqb maxAttempts 0 || Z.ltb (reconnectAttempts s) maxAttempts.

(** [reconnect], up to the [await] of the delay: the attempt is counted and
    announced, the timer is set, and the rest waits for it. *)
Definition reconnect : M unit :=
  modify_svc (fun s => set_reconnectAttempts (reconnectAttempts s + 1) s) ;;
  s <- get_svc ;;
  let delay := orZ (reconnectDelay (cdcOptions s)) 1000 in
  emit (ELogAttempt (reconnectAttempts s)
          (truthyZ (maxReconnectAttempts (cdcOptions s)))) ;;
  emit (ESetTimeout delay) ;;
  modify_host (fun h => set_timers (S (timers h)) h).

(** [reconnect], after the delay. A failed reopen asks [shouldReconnect]
    and calls [reconnect] again, which sets the next timer. *)
Definition reconnect_resume : M unit :=
  try_catch
    (s <- get_svc ;;
     match resumeToken s with
     | Some token =>
         modify_svc
           (fun s => set_cdcOptions (set_resumeAfter (Some token) (cdcOptions s)) s)
     | None => ret tt
     end ;;
     start ;;
     logger LLog "Reconnected successfully")
    (fun error =>
       logger LError "Reconnection failed" ;;
       s <- get_svc ;;
       if shouldReconnect s then reconnect
       else logger LError "Maximum reconnection attempts reached").

(** The timer of a pending [reconnect] fires. *)
Definition timer_fire : M unit :=
  h <- get_host ;;
  match timers h with
  | O => ret tt
  | S n => modify_host (set_timers n) ;; reconnect_resume
  end.

(** ** Callbacks and dispatch *)

Fixpoint for_each {A} (f : A -> M unit) (l : list A) : M unit :=
  match l with
  | [] => ret tt
  | x :: l' => f x ;; for_each f l'
  end.

(** A callback runs: it makes its calls on the service, then returns or
    throws. *)
Definition run_reaction (r : Reaction) : M unit :=
  for_each unregisterHandler (unregisters r) ;;
  match throws r with
  | Some e => throw e
  | None => ret tt
  end.

(** [for (const handler of this.handlers) body]: the array iterator reads
    [this.handlers[index]] afresh at every turn and stops when the index
    has reached the current length. No callback lengthens the array, so
    the loop makes at most as many turns as the array is long when it
    starts; [n] counts them down. *)
Fixpoint for_of_handlers (n index : nat) (body : HandlerId -> M unit)
    : M unit :=
  match n with
  | O => ret tt
  | S n' => fun w =>
      match handlers (svc w) !! index with
      | None => ret tt w
      | Some handler =>
          (body handler ;; for_of_handlers n' (S index) body) w
      end
  end.

Definition for_of (body : HandlerId -> M unit) : M unit :=
  fun w => for_of_handlers (length (handlers (svc w))) 0 body w.

Definition toEvent (change : RawChange) : CdcChangeEvent :=
  {| operationType := raw_operationType change;
     documentKey := raw_documentKey change;
     fullDocument := raw_fullDocument change;
     updateDescription := raw_updateDescription change;
     ns := raw_ns change;
     clusterTime := raw_clusterTime change |}.

Section Service.

(** The handler objects, and the hooks of the (sub)class. *)
Variable env : HandlerId -> CdcEventHandler.
Variable hooks : Hooks.

Definition call_onEvent (handler : HandlerId) (event : CdcChangeEvent)
    : M unit :=
  v <- get_view ;;
  emit (EOnEvent handler event v) ;;
  run_reaction (onEvent (env handler) event v).

Definition notifyHandlers (event : CdcChangeEvent) : M unit :=
  for_of (fun handler =>
    try_catch (call_onEvent handler event)
      (fun error => logger LError "Error in event handler")).

Definition call_onError (handler : HandlerId) (error : Error) : M unit :=
  match onError (env handler) with
  | Some f =>
      try_catch
        (v <- get_view ;;
         emit (EOnError handler error v) ;;
         run_reaction (f error v))
        (fun err => logger LError "Error in error handler")
  | None => ret tt
  end.

Definition handleError (error : Error) : M unit :=
  logger LError "CDC service error" ;;
  for_of (fun handler => call_onError handler error) ;;
  s <- get_svc ;;
  if (default false (autoReconnect (cdcOptions s)) && shouldReconnect s)%bool
  then reconnect
  else ret tt.

Definition call_onClose (handler : HandlerId) : M unit :=
  match onClose (env handler) with
  | Some f =>
      try_catch
        (v <- get_view ;;
         emit (EOnClose handler v) ;;
         run_reaction (f v))
        (fun error => logger LError "Error in close handler")
  | None => ret tt
  end.

Definition handleClose : M unit :=
  logger LLog "Change stream closed" ;;
  modify_svc (set_watching false) ;;
  for_of call_onClose ;;
  s <- get_svc ;;
  if (default false (autoReconnect (cdcOptions s)) && shouldReconnect s)%bool
  then reconnect
  else ret tt.

Definition call_hook (k : HookKind)
    (hook : CdcChangeEvent -> PublicView -> Reaction)
    (event : CdcChangeEvent) : M unit :=
  v <- get_view ;;
  emit (EHook k event v) ;;
  run_reaction (hook event v).

(** [handleChange], from its call to its end, with nothing handled in
    between: the dispatch of a notification that nothing interrupts. The
    method is [async] and its caller does not wait for it; its pieces,
    and what can run between them, follow below ([receive], [resume]),
    and [handleChange_uninterrupted] shows that this is the run in which
    the pieces follow one another. *)
Definition handleChange (change : RawChange) : M unit :=
  try_catch
    (match raw_id change with
     | Some token => modify_svc (set_resumeToken (Some token))
     | None => ret tt
     end ;;
     let event := toEvent change in
     match operationType event with
     | INSERT => call_hook HInsert (handleInsert hooks) event
     | UPDATE => call_hook HUpdate (handleUpdate hooks) event
     | REPLACE => call_hook HReplace (handleReplace hooks) event
     | DELETE => call_hook HDelete (handleDelete hooks) event
     | _ => call_hook HOther (handleOther hooks) event
     end ;;
     notifyHandlers event)
    (fun error =>
       logger LError "Error handling change event" ;;
       handleError error).

(** ** Signals: what reaches the service, one at a time *)

Inductive Signal :=
| CallStart
| CallStop
| CallRegister (h : HandlerId)
| CallUnregister (h : HandlerId)
| CallDestroy
| StreamChange (change : RawChange)
| StreamError (error : Error)
| StreamClose
| TimerFire.

Definition step (sig : Signal) : M unit :=
  match sig with
  | CallStart => start
  | CallStop => stop
  | CallRegister h => registerHandler h
  | CallUnregister h => unregisterHandler h
  | CallDestroy => onModuleDestroy
  | StreamChange change => handleChange change
  | StreamError error => handleError error
  | StreamClose => handleClose
  | TimerFire => timer_fire
  end.

(** A rejected call is the caller's to handle; the service carries on. *)
Definition deliver (sig : Signal) : M unit :=
  try_catch (step sig) (fun _ => ret tt).

Definition run (sigs : list Signal) : M unit := for_each deliver sigs.

End Service.

(** ** A dispatch in flight

    [handleChange] is an [async] function, and the [change] listener that
    [start] installs calls it without waiting for it. When it is called
    it runs up to its first [await]: the token is stored and the hook is
    called. What stands behind an [await] runs later, piece by piece (the
    fan-out suspends at the [await] of every turn of its loop), and
    between two pieces the listeners, the timer and the public methods
    can run: among them the [change] listener, with the next
    notification. [handleChange] above is the dispatch that nothing
    interrupts; here are its pieces.

    A callback is taken as a whole, as everywhere in this embedding: a
    turn of the loop, which calls [onEvent] and logs its failure, is one
    piece. So is the [catch] block with its call of [handleError], which
    is handled as an error of the stream is. *)

(** What is left to do of a dispatch that is suspended: the fan-out of
    [event] from position [index] of the registry on, or the [catch]
    block of [handleChange] with the error the hook threw. *)
Inductive Pending :=
| Fanout (event : CdcChangeEvent) (index : nat)
| Failed (error : Error).

Section Interleaving.
Variable env : HandlerId -> CdcEventHandler.
Variable hooks : Hooks.

(** [handleChange], from the call of the listener to the [await] of the
    hook. The hook is an [async] method: what it throws is seen when the
    [await] is resumed. *)
Definition receive (change : RawChange) : M Pending :=
  try_catch
    (match raw_id change with
     | Some token => modify_svc (set_resumeToken (Some token))
     | None => ret tt
     end ;;
     let event := toEvent change in
     match operationType event with
     | INSERT => call_hook HInsert (handleInsert hooks) event
     | UPDATE => call_hook HUpdate (handleUpdate hooks) event
     | REPLACE => call_hook HReplace (handleReplace hooks) event
     | DELETE => call_hook HDelete (handleDelete hooks) event
     | _ => call_hook HOther (handleOther hooks) event
     end ;;
     ret (Fanout event 0))
    (fun error => ret (Failed error)).

(** A suspended dispatch goes on to its next [await], or to its end
    ([None]). The loop of [notifyHandlers] reads [this.handlers[index]]
    when the turn begins, as the array is then. *)
Definition resume (p : Pending) : M (option Pending) :=
  match p with
  | Fanout event index => fun w =>
      match handlers (svc w) !! index with
      | Some handler =>
          (try_catch (call_onEvent env handler event)
             (fun error => logger LError "Error in event handler") ;;
           ret (Some (Fanout event (S index)))) w
      | None => ret None w
      end
  | Failed error =>
      logger LError "Error handling change event" ;;
      handleError env error ;;
      ret None
  end.

(** What the event loop does next: the stream emits [change] and the
    listener calls [handleChange]; the dispatch at position [k] of those
    in flight goes on; or a signal is handled in one piece. *)
Inductive Move :=
| Receive (change : RawChange)
| Resume (k : nat)
| Deliver (sig : Signal).

(** The service and its host, and the dispatches in flight, oldest
    first. *)
Record Loop := { world : World; in_flight : list Pending }.

Definition move (m : Move) (st : Loop) : Loop * list Effect :=
  match m with
  | Receive change =>
      let r := receive change (world st) in
      ({| world := final r;
          in_flight := match result r with
                       | Ok p => in_flight st ++ [p]
                       | Throw _ => in_flight st
                       end |},
       effects r)
  | Resume k =>
      match in_flight st !! k with
      | Some p =>
          let r := resume p (world st) in
          ({| world := final r;
              in_flight := match result r with
                           | Ok (Some p') => <[k := p']> (in_flight st)
                           | _ => delete k (in_flight st)
                           end |},
           effects r)
      | None => (st, [])
      end
  | Deliver sig =>
      let r := deliver env hooks sig (world st) in
      ({| world := final r; in_flight := in_flight st |}, effects r)
  end.

Fixpoint moves (ms : list Move) (st : Loop) : Loop * list Effect :=
  match ms with
  | [] => (st, [])
  | m :: ms' =>
      let r1 := move m st in
      let r2 := moves ms' (fst r1) in
      (fst r2, snd r1 ++ snd r2)
  end.

End Interleaving.

(** The service with no dispatch in flight. *)
Definition idle (w : World) : Loop := {| world := w; in_flight := [] |}.

(** * Reading the effects *)

Definition onEvent_call (e : Effect) : option HandlerId :=
  match e with
  | EOnEvent h _ _ => Some h
  | _ => None
  end.

Definition onError_call (e : Effect) : option HandlerId :=
  match e with
  | EOnError h _ _ => Some h
  | _ => None
  end.

Definition watch_request (e : Effect) : option ChangeStreamOptions :=
  match e with
  | EWatch _ req => Some req
  | _ => None
  end.

Definition close_call (e : Effect) : option StreamId :=
  match e with
  | ECloseStream sid => Some sid
  | _ => None
  end.

(** The handlers whose [onEvent] ran, in the order of the calls. *)
Definition onEvent_calls (es : list Effect) : list HandlerId :=
  omap onEvent_call es.

Definition onError_calls (es : list Effect) : list HandlerId :=
  omap onError_call es.

(** The requests of the [model.watch] calls. *)
Definition watch_requests (es : list Effect) : list ChangeStreamOptions :=
  omap watch_request es.

Definition close_calls (es : list Effect) : list StreamId :=
  omap close_call es.

(** What the service showed to a callback when it called it. *)
Definition callback_view (e : Effect) : option PublicView :=
  match e with
  | EHook _ _ v | EOnEvent _ _ v | EOnError _ _ v | EOnClose _ v => Some v
  | _ => None
  end.

(** * Invariants of computations

    [hoare I J P m]: started in a world where [I] holds, [m] ends in one
    where [J] holds, and every effect it performs satisfies [P].
    [keeps I P m] is the case where [I] is kept. *)

Definition hoare {A} (I J : World -> Prop) (P : Effect -> Prop) (m : M A)
    : Prop :=
  forall w, I w -> J (final (m w)) /\ Forall P (effects (m w)).

Definition keeps {A} (I : World -> Prop) (P : Effect -> Prop) (m : M A)
    : Prop :=
  hoare I I P m.

(** The resume position and the options are the ones given. *)
Definition stable (r : option ResumeToken) (o : CdcServiceOptions)
    (w : World) : Prop :=
  resumeToken (svc w) = r /\ cdcOptions (svc w) = o.

(** A callback that is called sees the resume position [r]. *)
Definition shows (r : option ResumeToken) (e : Effect) : Prop :=
  forall v, callback_view e = Some v -> view_resumeToken v = r.

(** No handler of the registry unregisters anything when it is given
    [event] in world [w]. *)
Definition undisturbed (env : HandlerId -> CdcEventHandler)
    (event : CdcChangeEvent) (w : World) : Prop :=
  forall h, h ∈ handlers (svc w) ->
    unregisters (onEvent (env h) event (public_view w)) = [].

(** What one turn of [notifyHandlers] leaves in the effects when the
    callback unregisters nothing. *)
Definition onEvent_turn (env : HandlerId -> CdcEventHandler)
    (event : CdcChangeEvent) (v : PublicView) (h : HandlerId)
    : list Effect :=
  EOnEvent h event v ::
  match throws (onEvent (env h) event v) with
  | Some _ => [ELogger LError "Error in event handler"]
  | None => []
  end.

(** The hook that [handleChange] selects for an operation type. *)
Definition hook_for (hooks : Hooks) (op : ChangeOperationType)
    : CdcChangeEvent -> PublicView -> Reaction :=
  match op with
  | INSERT => handleInsert hooks
  | UPDATE => handleUpdate hooks
  | REPLACE => handleReplace hooks
  | DELETE => handleDelete hooks
  | _ => handleOther hooks
  end.

Definition hook_kind (op : ChangeOperationType) : HookKind :=
  match op with
  | INSERT => HInsert
  | UPDATE => HUpdate
  | REPLACE => HReplace
  | DELETE => HDelete
  | _ => HOther
  end.

(** The resume position after a signal, given the one before it: only a
    notification that carries a token moves it. *)
Definition after_token (change : RawChange) (r : option ResumeToken)
    : option ResumeToken :=
  orElse (raw_id change) r.

(** The options after the reconnect continuation has run with resume
    position [r]. *)
Definition resumed (r : option ResumeToken) (o : CdcServiceOptions)
    : CdcServiceOptions :=
  match r with
  | Some token => set_resumeAfter (Some token) o
  | None => o
  end.

(** The resume position after a signal: only a notification moves it. *)
Definition signal_token (sig : Signal) (r : option ResumeToken)
    : option ResumeToken :=
  match sig with
  | StreamChange change => after_token change r
  | _ => r
  end.

(** The token of the last notification that carried one, or [r] when none
    of the signals did. *)
Definition last_token (sigs : list Signal) (r : option ResumeToken)
    : option ResumeToken :=
  fold_left (fun r sig => signal_token sig r) sigs r.

(** The service with the resume position that [handleChange] stores for
    [change]. *)
Definition store_token (change : RawChange) (w : World) : World :=
  {| svc := set_resumeToken (after_token change (resumeToken (svc w))) (svc w);
     host := host w |}.

(** ** Sample inputs, after the repository's tests *)

Definition tokenOf (data : string) : ResumeToken := {| _data := data |}.

Definition insertChange (token : option ResumeToken) : RawChange :=
  {| raw_id := token; raw_operationType := INSERT;
     raw_documentKey := Some "123"; raw_fullDocument := Some "test";
     raw_updateDescription := None;
     raw_ns := Some {| db := "testdb"; coll := "testcoll" |};
     raw_clusterTime := Some 1 |}.

(** The insert notification of the tests. *)
Definition testInsert : RawChange :=
  insertChange (Some (tokenOf "token123")).

(** A handler with the three callbacks, none of which does anything. *)
Definition plainHandler : CdcEventHandler :=
  {| onEvent := fun _ _ => quiet;
     onError := Some (fun _ _ => quiet);
     onClose := Some (fun _ => quiet) |}.

(** A handler whose [onEvent] unregisters handler [h]. *)
Definition unregistering (h : HandlerId) : CdcEventHandler :=
  {| onEvent := fun _ _ => {| unregisters := [h]; throws := None |};
     onError := None; onClose := None |}.

(** A handler whose [onEvent] throws. *)
Definition failingHandler : CdcEventHandler :=
  {| onEvent := fun _ _ => {| unregisters := []; throws := Some "handler failed" |};
     onError := Some (fun _ _ => quiet); onClose := None |}.

Definition plainEnv (h : HandlerId) : CdcEventHandler := plainHandler.


(** Handler 0 unregisters handler 2 in its [onEvent]. *)
Definition forwardRemovingEnv (h : HandlerId) : CdcEventHandler :=
  match h with
  | O => unregistering 2%nat
  | _ => plainHandler
  end.

(** Handler 1 throws from [onEvent]. *)
Definition failingEnv (h : HandlerId) : CdcEventHandler :=
  match h with
  | 1%nat => failingHandler
  | _ => plainHandler
  end.

(** A subclass whose insert hook throws. *)
Definition failingHooks : Hooks :=
  {| handleInsert := fun _ _ => {| unregisters := []; throws := Some "hook failed" |};
     handleUpdate := fun _ _ => quiet;
     handleReplace := fun _ _ => quiet;
     handleDelete := fun _ _ => quiet;
     handleOther := fun _ _ => quiet |}.

(** A service built with the default options, on a store that works. *)
Definition freshWorld : World := newWorld noOptions [] [].

Definition noReconnect : CdcServiceOptions :=
  {| changeStreamOptions := None; opt_fullDocument := None;
     resumeAfter := None; startAtOperationTime := None; pipeline := None;
     batchSize := None; maxAwaitTimeMS := None; autoReconnect := Some false;
     reconnectDelay := None; maxReconnectAttempts := None |}.

(** The same after [start()], with handlers 0, 1 and 2 registered. *)
Definition watchingWorld : World :=
  final (run plainEnv baseHooks
           [CallRegister 0%nat; CallRegister 1%nat; CallRegister 2%nat;
            CallStart] freshWorld).

(** ** The registry as a list *)

(** [handlers.splice(handlers.indexOf(h), 1)] when [h] is found. *)
Definition remove_first (h : HandlerId) (l : list HandlerId)
    : list HandlerId :=
  match indexOf h l with
  | Some index => delete index l
  | None => l
  end.

(** The registry after a callback has unregistered [hs], one by one. *)
Definition remove_all (hs l : list HandlerId) : list HandlerId :=
  fold_left (fun l h => remove_first h l) hs l.

Definition with_handlers (l : list HandlerId) (w : World) : World :=
  {| svc := set_handlers l (svc w); host := host w |}.

(** The handlers that a [for ... of this.handlers] loop visits, when the
    callback of [h] unregisters [unreg h]: the loop of [for_of_handlers] on
    the registry alone. *)
Fixpoint live_calls (unreg : HandlerId -> list HandlerId) (n index : nat)
    (l : list HandlerId) : list HandlerId :=
  match n with
  | O => []
  | S n' =>
      match l !! index with
      | None => []
      | Some h => h :: live_calls unreg n' (S index) (remove_all (unreg h) l)
      end
  end.

Definition is_log (e : Effect) : Prop :=
  match e with
  | ELogger _ _ => True
  | _ => False
  end.

(** The effects of the fan-out proper: [onEvent] calls and log lines. *)
Definition dispatch_only (e : Effect) : Prop :=
  match e with
  | EOnEvent _ _ _ | ELogger _ _ => True
  | _ => False
  end.


Definition no_onEvent (e : Effect) : Prop := onEvent_call e = None.

(** The debug lines that unregistering [hs] from registry [l] writes: one
    for each handler that was found. *)
Fixpoint unregister_logs (hs l : list HandlerId) : list Effect :=
  match hs with
  | [] => []
  | h :: hs' =>
      match indexOf h l with
      | Some _ => [ELogger LDebug "Event handler unregistered"]
      | None => []
      end ++ unregister_logs hs' (remove_first h l)
  end.

(** One turn of the loop of [notifyHandlers]. *)
Definition notify_body (env : HandlerId -> CdcEventHandler)
    (event : CdcChangeEvent) (handler : HandlerId) : M unit :=
  try_catch (call_onEvent env handler event)
    (fun error => logger LError "Error in event handler").

(** The handlers that the [onEvent] of [h] unregisters, for [event] seen
    with view [v]. *)
Definition unregistered_by (env : HandlerId -> CdcEventHandler)
    (event : CdcChangeEvent) (v : PublicView) (h : HandlerId)
    : list HandlerId :=
  unregisters (onEvent (env h) event v).

(** The world after [start()] has opened a subscription, and after
    [model.watch] has thrown. *)
Definition opened (w : World) : World :=
  {| svc := set_reconnectAttempts 0
              (set_watching true
                 (set_changeStream (Some (nextStream (host w))) (svc w)));
     host := fresh_stream (next_watch (host w)) |}.

Definition refused (w : World) : World :=
  {| svc := svc w; host := next_watch (host w) |}.

(** The [model.watch] call that [start()] makes in world [w]. *)
Definition watch_call (w : World) : Effect :=
  EWatch (default [] (pipeline (cdcOptions (svc w))))
    (buildChangeStreamOptions (cdcOptions (svc w))).


(** The effects of telling the handlers of an error: [onError] calls and
    log lines. *)
Definition error_only (e : Effect) : Prop :=
  match e with
  | EOnError _ _ _ | ELogger _ _ => True
  | _ => False
  end.

(** A service built with [autoReconnect: false], after [start()]. *)
Definition watchingNoReconnect : World :=
  final (run plainEnv baseHooks [CallRegister 0%nat; CallStart]
           (newWorld noReconnect [] [])).

(** A service with the default options that was started, processed a
    notification, received an [error] from its stream, and was stopped
    while the reconnect delay was running. *)
Definition stoppedWhileWaiting : World :=
  final (run plainEnv baseHooks
           [CallStart;
            StreamChange (insertChange (Some (tokenOf "token123")));
            StreamError "Connection lost";
            CallStop] freshWorld).

(** The same, when the stream closed instead. *)
Definition stoppedAfterClose : World :=
  final (run plainEnv baseHooks
           [CallStart;
            StreamChange (insertChange (Some (tokenOf "token123")));
            StreamClose;
            CallStop] freshWorld).

(** A loop body that never lengthens the registry. *)
Definition never_longer (body : HandlerId -> M unit) : Prop :=
  forall h w,
    (length (handlers (svc (final (body h w)))) <= length (handlers (svc w)))%nat.

(** The resume position and the options are the ones given, and the
    registry has property [Q]. *)
Definition steady (r : option ResumeToken) (o : CdcServiceOptions)
    (Q : list HandlerId -> Prop) (w : World) : Prop :=
  stable r o w /\ Q (handlers (svc w)).

(** ** The reconnect decision and its outcome *)

(** The condition under which [handleError] and [handleClose] call
    [reconnect]. *)
Definition wants_reconnect (s : BaseCdcService) : bool :=
  (default false (autoReconnect (cdcOptions s)) && shouldReconnect s)%bool.

(** The limit that [shouldReconnect] reads; [0] stands for no limit. *)
Definition maxAttempts (s : BaseCdcService) : Z :=
  orZ (maxReconnectAttempts (cdcOptions s)) 0.

(** The world after [reconnect] has counted an attempt and set its timer,
    and the two effects it performs on the way. *)
Definition scheduled (w : World) : World :=
  {| svc := set_reconnectAttempts (reconnectAttempts (svc w) + 1) (svc w);
     host := set_timers (S (timers (host w))) (host w) |}.

Definition reconnect_effects (w : World) : list Effect :=
  [ELogAttempt (reconnectAttempts (svc w) + 1)
     (truthyZ (maxReconnectAttempts (cdcOptions (svc w))));
   ESetTimeout (orZ (reconnectDelay (cdcOptions (svc w))) 1000)].

(** The world after [handleClose] has cleared [watching]. *)
Definition closed (w : World) : World :=
  {| svc := set_watching false (svc w); host := host w |}.

(** The world after the reconnect continuation has copied the resume
    position into the options. *)
Definition resume_options (w : World) : World :=
  match resumeToken (svc w) with
  | Some token =>
      {| svc := set_cdcOptions
                  (set_resumeAfter (Some token) (cdcOptions (svc w))) (svc w);
         host := host w |}
  | None => w
  end.

(** The world in which the continuation of a timer runs. *)
Definition timer_taken (w : World) : World :=
  {| svc := svc w; host := set_timers (pred (timers (host w))) (host w) |}.

(** The effects of telling the handlers of a close: [onClose] calls and
    log lines. *)
Definition close_only (e : Effect) : Prop :=
  match e with
  | EOnClose _ _ | ELogger _ _ => True
  | _ => False
  end.

(** The count of reconnect attempts is not negative and, when there is a
    limit, not above it. *)
Definition within_budget (w : World) : Prop :=
  0 <= reconnectAttempts (svc w) /\
  (0 < maxAttempts (svc w) -> reconnectAttempts (svc w) <= maxAttempts (svc w)).

Definition hook_call (e : Effect) : option (HookKind * CdcChangeEvent) :=
  match e with
  | EHook k ev _ => Some (k, ev)
  | _ => None
  end.

(** The hooks called, with the events they were given. *)
Definition hook_calls (es : list Effect) : list (HookKind * CdcChangeEvent) :=
  omap hook_call es.

Definition onClose_call (e : Effect) : option HandlerId :=
  match e with
  | EOnClose h _ => Some h
  | _ => None
  end.

Definition onClose_calls (es : list Effect) : list HandlerId :=
  omap onClose_call es.

Definition timeout_of (e : Effect) : option Z :=
  match e with
  | ESetTimeout delay => Some delay
  | _ => None
  end.

(** The delays of the timers set. *)
Definition timeouts (es : list Effect) : list Z := omap timeout_of es.

(** A freshly constructed service whose store refuses every one of the
    next [n] subscriptions, and one whose stream fails to close. *)
Definition refusingWorld (options : CdcServiceOptions) (n : nat) : World :=
  newWorld options (replicate n (Some "refused")) [].

Definition closeFailingWorld : World :=
  final (start (newWorld noOptions [] [Some "close failed"])).


(** A service with the default options whose stream closed, waiting for
    its first reconnect timer. *)
Definition waitingWorld : World :=
  final (run plainEnv baseHooks [CallStart; StreamChange testInsert; StreamClose]
           freshWorld).

(** ** Telling the handlers of an error and of a close *)

(** The handler and the error of an [onError] call; the handler of an
    [onClose] call and what [isWatching()] showed to it. *)
Definition onError_with (e : Effect) : option (HandlerId * Error) :=
  match e with
  | EOnError h err _ => Some (h, err)
  | _ => None
  end.


(** What one turn of the loops of [handleError] and [handleClose] leaves
    in the effects when the callback unregisters nothing. *)
Definition onError_turn (env : HandlerId -> CdcEventHandler) (error : Error)
    (v : PublicView) (h : HandlerId) : list Effect :=
  match onError (env h) with
  | Some f =>
      EOnError h error v ::
      match throws (f error v) with
      | Some _ => [ELogger LError "Error in error handler"]
      | None => []
      end
  | None => []
  end.


(** No [onError] (no [onClose]) callback of the registry unregisters
    anything in world [w]. *)
Definition onError_undisturbed (env : HandlerId -> CdcEventHandler)
    (error : Error) (w : World) : Prop :=
  forall h f, h ∈ handlers (svc w) -> onError (env h) = Some f ->
    unregisters (f error (public_view w)) = [].


(** Handlers 0 and 2 have all callbacks, handler 1 has [onEvent] alone,
    and the [onError] and [onClose] of handler 0 throw. *)
Definition partialEnv (h : HandlerId) : CdcEventHandler :=
  match h with
  | O => {| onEvent := fun _ _ => quiet;
            onError := Some (fun _ _ =>
              {| unregisters := []; throws := Some "onError failed" |});
            onClose := Some (fun _ =>
              {| unregisters := []; throws := Some "onClose failed" |}) |}
  | 1%nat => {| onEvent := fun _ _ => quiet; onError := None; onClose := None |}
  | _ => plainHandler
  end.

(** ** Effects that stay inside the process *)

(** Calls of hooks and handlers, and log lines: no call to the store, no
    timer. *)
Definition callbacks_only (e : Effect) : Prop :=
  match e with
  | EHook _ _ _ | EOnEvent _ _ _ | EOnError _ _ _ | EOnClose _ _
  | ELogger _ _ => True
  | _ => False
  end.

(** The number of [start()] calls among the signals. *)
Fixpoint starts (sigs : list Signal) : nat :=
  match sigs with
  | [] => O
  | CallStart :: rest => S (starts rest)
  | _ :: rest => starts rest
  end.

(** Options that ask for reconnects without a limit. *)
Definition unlimitedOptions : CdcServiceOptions :=
  {| changeStreamOptions := None; opt_fullDocument := None;
     resumeAfter := None; startAtOperationTime := None; pipeline := None;
     batchSize := None; maxAwaitTimeMS := None; autoReconnect := None;
     reconnectDelay := None; maxReconnectAttempts := Some 0 |}.

(** ** Dispatches in flight: what moves the resume position *)

(** The resume position after a move, given the one before it. *)
Definition move_token (m : Move) (r : option ResumeToken)
    : option ResumeToken :=
  match m with
  | Receive change => after_token change r
  | Resume _ => r
  | Deliver sig => signal_token sig r
  end.

(** A move that brings no token: anything but the receipt of a
    notification that carries one. *)
Definition brings_no_token (m : Move) : Prop :=
  match m with
  | Receive change | Deliver (StreamChange change) => raw_id change = None
  | _ => True
  end.

(** An insert of document [key] with resume token [data]. *)
Definition insertOf (key data : string) : RawChange :=
  {| raw_id := Some (tokenOf data); raw_operationType := INSERT;
     raw_documentKey := Some key; raw_fullDocument := Some "test";
     raw_updateDescription := None;
     raw_ns := Some {| db := "testdb"; coll := "testcoll" |};
     raw_clusterTime := Some 1 |}.


(** The event a hook or an [onEvent] is called with. *)
Definition callback_event (e : Effect) : option CdcChangeEvent :=
  match e with
  | EHook _ ev _ | EOnEvent _ ev _ => Some ev
  | _ => None
  end.

(** The service with three handlers, watching, when the dispatch of a
    first notification is suspended at the [await] of its hook. *)
Definition oneInFlight : Loop :=
  fst (moves failingEnv baseHooks [Receive (insertOf "doc1" "token1")]
         (idle watchingWorld)).

(** * Lemmas *)

Section Hoare.
Context (I : World -> Prop) (P : Effect -> Prop).

Lemma keeps_ret {A} (a : A) : keeps I P (ret a).
Proof. intros w Hw. split; [exact Hw | constructor]. Qed.

Lemma keeps_throw {A} (e : Error) : keeps I P (@throw A e).
Proof. intros w Hw. split; [exact Hw | constructor]. Qed.

Lemma keeps_emit (e : Effect) : P e -> keeps I P (emit e).
Proof. intros He w Hw. split; [exact Hw | repeat constructor; exact He]. Qed.

Lemma hoare_bind {A B} (J K : World -> Prop) (m : M A) (k : A -> M B) :
  hoare I J P m -> (forall a, hoare J K P (k a)) ->
  (forall w, J w -> K w) ->
  hoare I K P (bind m k).
Proof.
  intros Hm Hk HJK w Hw. unfold bind.
  destruct (Hm w Hw) as [H1 H2].
  destruct (m w) as [[a|e] w1 es1]; simpl in *; [|auto].
  destruct (Hk a _ H1) as [H3 H4].
  destruct (k a w1) as [r2 w2 es2]; simpl in *. split; [exact H3|].
  apply Forall_app; auto.
Qed.

Lemma keeps_bind {A B} (m : M A) (k : A -> M B) :
  keeps I P m -> (forall a, keeps I P (k a)) -> keeps I P (bind m k).
Proof. intros Hm Hk. apply (hoare_bind I I); auto. Qed.

Lemma hoare_try_catch {A} (J : World -> Prop) (m : M A) (h : Error -> M A) :
  hoare I J P m -> (forall e, keeps J P (h e)) ->
  hoare I J P (try_catch m h).
Proof.
  intros Hm Hh w Hw. unfold try_catch.
  destruct (Hm w Hw) as [H1 H2].
  destruct (m w) as [[a|e] w1 es1]; simpl in *; [auto|].
  destruct (Hh e _ H1) as [H3 H4].
  destruct (h e w1) as [r2 w2 es2]; simpl in *. split; [exact H3|].
  apply Forall_app; auto.
Qed.

Lemma keeps_try_catch {A} (m : M A) (h : Error -> M A) :
  keeps I P m -> (forall e, keeps I P (h e)) -> keeps I P (try_catch m h).
Proof. apply hoare_try_catch. Qed.

Lemma keeps_get_svc : keeps I P get_svc.
Proof. intros w Hw. split; [exact Hw | constructor]. Qed.

Lemma keeps_get_host : keeps I P get_host.
Proof. intros w Hw. split; [exact Hw | constructor]. Qed.

Lemma keeps_modify_svc f :
  (forall w, I w -> I {| svc := f (svc w); host := host w |}) ->
  keeps I P (modify_svc f).
Proof. intros Hf w Hw. split; [apply Hf, Hw | constructor]. Qed.

Lemma keeps_modify_host f :
  (forall w, I w -> I {| svc := svc w; host := f (host w) |}) ->
  keeps I P (modify_host f).
Proof. intros Hf w Hw. split; [apply Hf, Hw | constructor]. Qed.

(** A callback is shown the view of the world it is called in. *)
Lemma keeps_with_view {B} (k : PublicView -> M B) :
  (forall w, I w ->
     I (final (k (public_view w) w)) /\
     Forall P (effects (k (public_view w) w))) ->
  keeps I P (bind get_view k).
Proof.
  intros Hk w Hw. unfold bind, get_view.
  destruct (Hk w Hw) as [H1 H2].
  destruct (k (public_view w) w); simpl in *; auto.
Qed.

Lemma hoare_weaken {A} (J J' : World -> Prop) (m : M A) :
  hoare I J P m -> (forall w, J w -> J' w) -> hoare I J' P m.
Proof. intros Hm HJ w Hw. destruct (Hm w Hw). split; auto. Qed.

Lemma hoare_with_svc {B} (J : World -> Prop) (k : BaseCdcService -> M B) :
  (forall w, I w ->
     J (final (k (svc w) w)) /\ Forall P (effects (k (svc w) w))) ->
  hoare I J P (bind get_svc k).
Proof.
  intros Hk w Hw. unfold bind, get_svc.
  destruct (Hk w Hw) as [H1 H2].
  destruct (k (svc w) w); simpl in *; auto.
Qed.

Lemma hoare_with_host {B} (J : World -> Prop) (k : Host -> M B) :
  (forall w, I w ->
     J (final (k (host w) w)) /\ Forall P (effects (k (host w) w))) ->
  hoare I J P (bind get_host k).
Proof.
  intros Hk w Hw. unfold bind, get_host.
  destruct (Hk w Hw) as [H1 H2].
  destruct (k (host w) w); simpl in *; auto.
Qed.

Lemma keeps_for_each {A} (f : A -> M unit) (l : list A) :
  (forall a, keeps I P (f a)) -> keeps I P (for_each f l).
Proof.
  intros Hf. induction l as [|a l IH]; simpl.
  - apply keeps_ret.
  - apply keeps_bind; auto.
Qed.

Lemma keeps_for_of_handlers n i body :
  (forall h, keeps I P (body h)) -> keeps I P (for_of_handlers n i body).
Proof.
  intros Hb. revert i. induction n as [|n IH]; intros i; simpl.
  - apply keeps_ret.
  - intros w Hw. destruct (handlers (svc w) !! i) as [h|].
    + apply keeps_bind; auto.
    + apply keeps_ret; auto.
Qed.

Lemma keeps_for_of body :
  (forall h, keeps I P (body h)) -> keeps I P (for_of body).
Proof. intros Hb w Hw. unfold for_of. apply keeps_for_of_handlers; auto. Qed.

End Hoare.

(** ** Running computations *)

Lemma bind_Ok {A B} (m : M A) (k : A -> M B) w a :
  result (m w) = Ok a ->
  bind m k w =
  MkRun (result (k a (final (m w)))) (final (k a (final (m w))))
    (effects (m w) ++ effects (k a (final (m w)))).
Proof.
  intros H. unfold bind. destruct (m w) as [r1 w1 es1]. simpl in *. subst r1.
  destruct (k a w1). reflexivity.
Qed.

Lemma deliver_run env hooks sig w :
  deliver env hooks sig w =
  MkRun (Ok tt) (final (step env hooks sig w)) (effects (step env hooks sig w)).
Proof.
  unfold deliver, try_catch.
  destruct (step env hooks sig w) as [[[]|e] w1 es1]; simpl.
  - reflexivity.
  - now rewrite app_nil_r.
Qed.

Lemma run_cons env hooks sig sigs w :
  run env hooks (sig :: sigs) w =
  let r := run env hooks sigs (final (step env hooks sig w)) in
  MkRun (result r) (final r) (effects (step env hooks sig w) ++ effects r).
Proof.
  unfold run. simpl for_each.
  rewrite (bind_Ok _ _ w tt) by (now rewrite deliver_run).
  rewrite deliver_run. reflexivity.
Qed.

(** ** The registry *)

Lemma indexOf_cons h x l :
  indexOf h (x :: l) = if decide (x = h) then Some O else S <$> indexOf h l.
Proof.
  unfold indexOf. simpl. destruct (decide (x = h)); [reflexivity|].
  destruct (list_find (fun x => x = h) l) as [[i y]|]; reflexivity.
Qed.

Lemma indexOf_None h l : indexOf h l = None <-> h ∉ l.
Proof.
  induction l as [|x l IH].
  - split; [intros _; apply not_elem_of_nil|reflexivity].
  - rewrite indexOf_cons, not_elem_of_cons.
    destruct (decide (x = h)) as [->|Hne].
    + split; [discriminate|intros [H _]; now destruct H].
    + destruct (indexOf h l); simpl.
      * split; [discriminate|]. intros [_ H]. now apply IH in H.
      * split; [|reflexivity]. intros _. split; [congruence|]. now apply IH.
Qed.

Lemma remove_first_cons h x l :
  remove_first h (x :: l) =
  if decide (x = h) then l else x :: remove_first h l.
Proof.
  unfold remove_first. rewrite indexOf_cons.
  destruct (decide (x = h)); [reflexivity|].
  destruct (indexOf h l); reflexivity.
Qed.

Lemma remove_first_absent h l : h ∉ l -> remove_first h l = l.
Proof.
  intros H. unfold remove_first.
  apply indexOf_None in H. now rewrite H.
Qed.

Lemma remove_first_sublist h l : remove_first h l `sublist_of` l.
Proof.
  unfold remove_first.
  destruct (indexOf h l); [apply sublist_delete|reflexivity].
Qed.



Lemma remove_first_app h p l :
  h ∉ p -> remove_first h (p ++ l) = p ++ remove_first h l.
Proof.
  induction p as [|x p IH]; intros Hp; simpl.
  - reflexivity.
  - apply not_elem_of_cons in Hp as [Hne Hp].
    rewrite remove_first_cons. destruct (decide (x = h)); [congruence|].
    now rewrite IH.
Qed.

Lemma remove_all_sublist hs l : remove_all hs l `sublist_of` l.
Proof.
  unfold remove_all. revert l. induction hs as [|h hs IH]; intros l; simpl.
  - reflexivity.
  - etransitivity; [apply IH|apply remove_first_sublist].
Qed.






Lemma with_handlers_same w : with_handlers (handlers (svc w)) w = w.
Proof. destruct w as [[] ?]. reflexivity. Qed.

Lemma unregisterHandler_run h w :
  unregisterHandler h w =
  MkRun (Ok tt) (with_handlers (remove_first h (handlers (svc w))) w)
    (unregister_logs [h] (handlers (svc w))).
Proof.
  unfold unregisterHandler, remove_first, bind, get_svc. simpl.
  destruct (indexOf h (handlers (svc w))); simpl.
  - reflexivity.
  - unfold ret. now rewrite with_handlers_same.
Qed.

Lemma registerHandler_run h w :
  registerHandler h w =
  if decide (h ∈ handlers (svc w)) then MkRun (Ok tt) w []
  else MkRun (Ok tt) (with_handlers (handlers (svc w) ++ [h]) w)
         [ELogger LDebug "Event handler registered"].
Proof.
  unfold registerHandler, bind at 1, get_svc.
  destruct (decide (h ∈ handlers (svc w))); reflexivity.
Qed.

(** ** What the operations leave alone

    Every operation but the dispatch of a notification and the reconnect
    continuation keeps the resume position and the options; every
    operation keeps a property [Q] of the registry that survives the
    removal of a handler and the addition of a new one; the effects an
    operation performs are of a few kinds, and a property [P] of effects
    that holds of those kinds holds of all it does. *)

Ltac stable_side :=
  match goal with
  | |- forall w, steady _ _ _ w -> steady _ _ _ _ =>
      intros ? [[? ?] ?]; split; [split|]; simpl; assumption
  | |- _ => auto
  end.

Ltac stable_step :=
  first
    [ apply keeps_ret | apply keeps_throw
    | apply keeps_get_svc | apply keeps_get_host
    | apply keeps_emit; stable_side
    | apply keeps_modify_svc; stable_side
    | apply keeps_modify_host; stable_side
    | apply keeps_bind; [|intros ?]
    | apply keeps_try_catch; [|intros ?] ].

Section Frame.
Variable env : HandlerId -> CdcEventHandler.
Variable r : option ResumeToken.
Variable o : CdcServiceOptions.
Variable Q : list HandlerId -> Prop.
Variable P : Effect -> Prop.

Hypothesis Q_remove : forall h l, Q l -> Q (remove_first h l).
Hypothesis Q_add : forall h l, h ∉ l -> Q l -> Q (l ++ [h]).
Hypothesis P_log : forall lvl msg, P (ELogger lvl msg).
Hypothesis P_watch : forall stages req, P (EWatch stages req).
Hypothesis P_close : forall sid, P (ECloseStream sid).
Hypothesis P_timeout : forall delay, P (ESetTimeout delay).
Hypothesis P_attempt : forall n limit, P (ELogAttempt n limit).
Hypothesis P_hook : forall k ev v,
  view_resumeToken v = r -> P (EHook k ev v).
Hypothesis P_onEvent : forall h ev v,
  view_resumeToken v = r -> P (EOnEvent h ev v).
Hypothesis P_onError : forall h err v,
  view_resumeToken v = r -> P (EOnError h err v).
Hypothesis P_onClose : forall h v,
  view_resumeToken v = r -> P (EOnClose h v).

Lemma stable_logger lvl msg : keeps (steady r o Q) P (logger lvl msg).
Proof. unfold logger. stable_step. Qed.

Lemma stable_registerHandler h : keeps (steady r o Q) P (registerHandler h).
Proof.
  intros w [[Hr Ho] HQ]. rewrite registerHandler_run.
  destruct (decide (h ∈ handlers (svc w))) as [Hin|Hout]; cbn [final effects].
  - split; [repeat split; assumption|constructor].
  - split; [|repeat constructor; apply P_log].
    split; [split; assumption|]. simpl. now apply Q_add.
Qed.

Lemma stable_unregisterHandler h :
  keeps (steady r o Q) P (unregisterHandler h).
Proof.
  intros w [[Hr Ho] HQ]. rewrite unregisterHandler_run. cbn [final effects].
  split.
  - split; [split; assumption|]. simpl. now apply Q_remove.
  - simpl. destruct (indexOf h (handlers (svc w))); repeat constructor.
    apply P_log.
Qed.

Lemma stable_run_reaction rx : keeps (steady r o Q) P (run_reaction rx).
Proof.
  unfold run_reaction. stable_step.
  - apply keeps_for_each. intros h. apply stable_unregisterHandler.
  - destruct (throws rx); stable_step.
Qed.

Lemma stable_start : keeps (steady r o Q) P start.
Proof.
  unfold start, model_watch, logger. stable_step; [stable_step|].
  destruct (watching _); [stable_step|].
  repeat stable_step.
  destruct (head _) as [[?|]|]; repeat stable_step.
Qed.

Lemma stable_stop : keeps (steady r o Q) P stop.
Proof.
  unfold stop, stream_close, logger. stable_step; [stable_step|].
  destruct (negb _); [stable_step|].
  repeat stable_step.
  destruct (changeStream _); repeat stable_step.
  destruct (head _) as [[?|]|]; repeat stable_step.
Qed.

Lemma stable_reconnect : keeps (steady r o Q) P reconnect.
Proof. unfold reconnect. repeat stable_step. Qed.

Lemma stable_call_onEvent h ev : keeps (steady r o Q) P (call_onEvent env h ev).
Proof.
  unfold call_onEvent. apply keeps_with_view. intros w Hw.
  refine (keeps_bind _ _ _ _ _ _ w Hw).
  - apply keeps_emit, P_onEvent, (proj1 (proj1 Hw)).
  - intros _. apply stable_run_reaction.
Qed.

Lemma stable_notifyHandlers ev :
  keeps (steady r o Q) P (notifyHandlers env ev).
Proof.
  unfold notifyHandlers. apply keeps_for_of. intros h.
  apply keeps_try_catch; [apply stable_call_onEvent|].
  intros e. apply stable_logger.
Qed.

Lemma stable_call_onError h err :
  keeps (steady r o Q) P (call_onError env h err).
Proof.
  unfold call_onError. destruct (onError (env h)) as [f|]; [|stable_step].
  apply keeps_try_catch; [|intros e; apply stable_logger].
  apply keeps_with_view. intros w Hw.
  refine (keeps_bind _ _ _ _ _ _ w Hw).
  - apply keeps_emit, P_onError, (proj1 (proj1 Hw)).
  - intros _. apply stable_run_reaction.
Qed.

Lemma stable_call_onClose h : keeps (steady r o Q) P (call_onClose env h).
Proof.
  unfold call_onClose. destruct (onClose (env h)) as [f|]; [|stable_step].
  apply keeps_try_catch; [|intros e; apply stable_logger].
  apply keeps_with_view. intros w Hw.
  refine (keeps_bind _ _ _ _ _ _ w Hw).
  - apply keeps_emit, P_onClose, (proj1 (proj1 Hw)).
  - intros _. apply stable_run_reaction.
Qed.

Lemma stable_handleError err : keeps (steady r o Q) P (handleError env err).
Proof.
  unfold handleError. stable_step; [apply stable_logger|].
  stable_step.
  - apply keeps_for_of. intros h. apply stable_call_onError.
  - stable_step; [stable_step|].
    destruct (_ && _)%bool; [apply stable_reconnect | stable_step].
Qed.

Lemma stable_handleClose : keeps (steady r o Q) P (handleClose env).
Proof.
  unfold handleClose. stable_step; [apply stable_logger|].
  stable_step; [stable_step|]. stable_step.
  - apply keeps_for_of. intros h. apply stable_call_onClose.
  - stable_step; [stable_step|].
    destruct (_ && _)%bool; [apply stable_reconnect | stable_step].
Qed.

Lemma stable_call_hook k hook ev : keeps (steady r o Q) P (call_hook k hook ev).
Proof.
  unfold call_hook. apply keeps_with_view. intros w Hw.
  refine (keeps_bind _ _ _ _ _ _ w Hw).
  - apply keeps_emit, P_hook, (proj1 (proj1 Hw)).
  - intros _. apply stable_run_reaction.
Qed.

Lemma stable_reconnect_resume :
  hoare (steady r o Q) (steady r (resumed r o) Q) P reconnect_resume.
Proof.
  unfold reconnect_resume. apply hoare_try_catch.
  - apply hoare_with_svc. intros w Hw.
    refine (hoare_bind _ _ (steady r (resumed r o) Q) _ _ _ _ _ _ w Hw);
      [| |auto].
    + destruct Hw as [[Hr Ho] HQ]. rewrite Hr. unfold resumed.
      destruct r as [token|].
      * intros w' [[Hr' Ho'] HQ']. split; [|constructor].
        split; [split|]; simpl; [auto| |auto]. now rewrite Ho'.
      * apply keeps_ret.
    + intros _. apply keeps_bind.
      * unfold start, model_watch, logger. stable_step; [stable_step|].
        destruct (watching _); [stable_step|].
        repeat stable_step.
        destruct (head _) as [[?|]|]; repeat stable_step.
      * intros _. unfold logger. stable_step.
  - intros e. unfold logger. apply keeps_bind; [stable_step|]. intros _.
    apply keeps_bind; [apply keeps_get_svc|]. intros s.
    destruct (shouldReconnect s); [|stable_step].
    unfold reconnect. repeat stable_step.
Qed.

Lemma stable_timer_fire :
  hoare (steady r o Q)
    (fun w => steady r o Q w \/ steady r (resumed r o) Q w) P
    timer_fire.
Proof.
  unfold timer_fire. apply hoare_with_host. intros w Hw.
  destruct (timers (host w)) as [|n].
  - split; [left; exact Hw|constructor].
  - refine (hoare_bind _ _ (steady r o Q)
              (fun w' => steady r o Q w' \/ steady r (resumed r o) Q w')
              _ _ _ _ _ w Hw).
    + apply keeps_modify_host. stable_side.
    + intros _. eapply hoare_weaken; [apply stable_reconnect_resume|].
      intros w'. auto.
    + auto.
Qed.

End Frame.

Ltac shows_side :=
  intros; unfold shows; intros;
  first
    [ discriminate
    | match goal with
      | H : callback_view _ = Some _ |- _ =>
          simpl in H; injection H as <-; assumption
      end ].

Section Dispatch.
Variable env : HandlerId -> CdcEventHandler.
Variable hooks : Hooks.
Variable r : option ResumeToken.
Variable o : CdcServiceOptions.
Variable change : RawChange.
Variable Q : list HandlerId -> Prop.
Variable P : Effect -> Prop.

Hypothesis Q_remove : forall h l, Q l -> Q (remove_first h l).
Hypothesis P_log : forall lvl msg, P (ELogger lvl msg).
Hypothesis P_timeout : forall delay, P (ESetTimeout delay).
Hypothesis P_attempt : forall n limit, P (ELogAttempt n limit).
Hypothesis P_hook : forall k ev v,
  view_resumeToken v = after_token change r -> P (EHook k ev v).
Hypothesis P_onEvent : forall h ev v,
  view_resumeToken v = after_token change r -> P (EOnEvent h ev v).
Hypothesis P_onError : forall h err v,
  view_resumeToken v = after_token change r -> P (EOnError h err v).

Lemma stable_handleChange :
  hoare (steady r o Q) (steady (after_token change r) o Q) P
    (handleChange env hooks change).
Proof.
  unfold handleChange.
  apply hoare_try_catch.
  - eapply hoare_bind with (J := steady (after_token change r) o Q);
      [| |auto].
    + unfold after_token. destruct (raw_id change) as [token|]; simpl.
      * intros w [[_ Ho] HQ].
        split; [split; [split|]; simpl; auto|constructor].
      * apply keeps_ret.
    + intros _. apply keeps_bind.
      * simpl. destruct (raw_operationType change);
          apply stable_call_hook; auto.
      * intros _. apply stable_notifyHandlers; auto.
  - intros e. apply keeps_bind; [apply stable_logger; auto|].
    intros _. apply stable_handleError; auto.
Qed.

End Dispatch.

(** Every signal leaves the resume position where [signal_token] says, the
    options as they are, but for the reconnect continuation, and the
    registry with the property it had. *)
Lemma step_stable env hooks sig r o (Q : list HandlerId -> Prop) :
  (forall h l, Q l -> Q (remove_first h l)) ->
  (forall h l, h ∉ l -> Q l -> Q (l ++ [h])) ->
  hoare (steady r o Q)
    (fun w => resumeToken (svc w) = signal_token sig r /\
              (cdcOptions (svc w) = o \/
               (sig = TimerFire /\ cdcOptions (svc w) = resumed r o)) /\
              Q (handlers (svc w)))
    (shows (signal_token sig r)) (step env hooks sig).
Proof.
  intros Q_remove Q_add.
  assert (Hk : forall (m : M unit),
    keeps (steady r o Q) (shows r) m ->
    hoare (steady r o Q)
      (fun w => resumeToken (svc w) = r /\
                (cdcOptions (svc w) = o \/
                 (sig = TimerFire /\ cdcOptions (svc w) = resumed r o)) /\
                Q (handlers (svc w)))
      (shows r) m).
  { intros m Hm. eapply hoare_weaken; [exact Hm|].
    intros w [[? ?] ?]. auto. }
  destruct sig; simpl.
  - apply Hk, stable_start; solve [shows_side|auto].
  - apply Hk, stable_stop; solve [shows_side|auto].
  - apply Hk, stable_registerHandler; solve [shows_side|auto].
  - apply Hk, stable_unregisterHandler; solve [shows_side|auto].
  - apply Hk, stable_stop; solve [shows_side|auto].
  - eapply hoare_weaken; [apply stable_handleChange; solve [shows_side|auto]|].
    intros w [[? ?] ?]. auto.
  - apply Hk, stable_handleError; solve [shows_side|auto].
  - apply Hk, stable_handleClose; solve [shows_side|auto].
  - eapply hoare_weaken; [apply stable_timer_fire; solve [shows_side|auto]|].
    intros w [[[? ?] ?]|[[? ?] ?]]; auto.
Qed.

Lemma run_resumeToken env hooks sigs w :
  getResumeToken (final (run env hooks sigs w)) =
  last_token sigs (getResumeToken w).
Proof.
  revert w. induction sigs as [|sig sigs IH]; intros w.
  - reflexivity.
  - rewrite run_cons. simpl final. rewrite IH. unfold last_token. simpl. f_equal.
    destruct (step_stable env hooks sig (getResumeToken w)
                (cdcOptions (svc w)) (fun _ => True)) with (w := w)
      as [[H _] _]; auto.
    repeat split.
Qed.



(** ** Callbacks, step by step *)

Lemma for_each_unregister_run hs w :
  for_each unregisterHandler hs w =
  MkRun (Ok tt) (with_handlers (remove_all hs (handlers (svc w))) w)
    (unregister_logs hs (handlers (svc w))).
Proof.
  revert w. induction hs as [|h hs IH]; intros w.
  - simpl. unfold ret. now rewrite with_handlers_same.
  - simpl for_each. unfold bind. rewrite unregisterHandler_run, IH.
    simpl. now rewrite app_nil_r.
Qed.

Lemma run_reaction_run rx w :
  run_reaction rx w =
  MkRun (match throws rx with Some e => Throw e | None => Ok tt end)
    (with_handlers (remove_all (unregisters rx) (handlers (svc w))) w)
    (unregister_logs (unregisters rx) (handlers (svc w))).
Proof.
  unfold run_reaction, bind. rewrite for_each_unregister_run.
  destruct (throws rx); simpl; now rewrite app_nil_r.
Qed.

Lemma call_hook_run k hook ev w :
  call_hook k hook ev w =
  MkRun
    (match throws (hook ev (public_view w)) with
     | Some e => Throw e
     | None => Ok tt
     end)
    (with_handlers
       (remove_all (unregisters (hook ev (public_view w))) (handlers (svc w)))
       w)
    (EHook k ev (public_view w) ::
     unregister_logs (unregisters (hook ev (public_view w)))
       (handlers (svc w))).
Proof.
  unfold call_hook, bind, get_view, emit.
  rewrite run_reaction_run.
  destruct (throws (hook ev (public_view w))); reflexivity.
Qed.

Lemma notify_body_run env ev h w :
  notify_body env ev h w =
  MkRun (Ok tt)
    (with_handlers
       (remove_all (unregistered_by env ev (public_view w) h)
          (handlers (svc w))) w)
    (EOnEvent h ev (public_view w) ::
     unregister_logs (unregistered_by env ev (public_view w) h)
       (handlers (svc w)) ++
     match throws (onEvent (env h) ev (public_view w)) with
     | Some _ => [ELogger LError "Error in event handler"]
     | None => []
     end).
Proof.
  unfold notify_body, try_catch, call_onEvent, bind, get_view, emit,
    unregistered_by.
  rewrite run_reaction_run.
  destruct (throws (onEvent (env h) ev (public_view w))); simpl.
  - reflexivity.
  - now rewrite app_nil_r.
Qed.

Lemma onEvent_calls_app es1 es2 :
  onEvent_calls (es1 ++ es2) = onEvent_calls es1 ++ onEvent_calls es2.
Proof. apply omap_app. Qed.

Lemma onEvent_calls_unregister_logs hs l :
  onEvent_calls (unregister_logs hs l) = [].
Proof.
  revert l. induction hs as [|h hs IH]; intros l; simpl; [reflexivity|].
  rewrite onEvent_calls_app, IH.
  destruct (indexOf h l); reflexivity.
Qed.

Lemma onEvent_calls_notify_body env ev h w :
  onEvent_calls (effects (notify_body env ev h w)) = [h].
Proof.
  rewrite notify_body_run. simpl effects.
  change (onEvent_calls (EOnEvent h ev (public_view w) :: ?es))
    with (h :: onEvent_calls es).
  rewrite onEvent_calls_app, onEvent_calls_unregister_logs.
  destruct (throws _); reflexivity.
Qed.

(** The loop of [notifyHandlers] visits the handlers that [live_calls]
    lists, never throws, and touches nothing but the registry. *)
Lemma notify_loop_run env ev n i w :
  result (for_of_handlers n i (notify_body env ev) w) = Ok tt /\
  onEvent_calls (effects (for_of_handlers n i (notify_body env ev) w)) =
    live_calls (unregistered_by env ev (public_view w)) n i
      (handlers (svc w)) /\
  exists l, final (for_of_handlers n i (notify_body env ev) w) =
            with_handlers l w.
Proof.
  revert i w. induction n as [|n IH]; intros i w; simpl.
  - repeat split. exists (handlers (svc w)). now rewrite with_handlers_same.
  - destruct (handlers (svc w) !! i) as [h|] eqn:E.
    + rewrite (bind_Ok _ _ w tt) by (now rewrite notify_body_run).
      cbn [result final effects]. rewrite onEvent_calls_app.
      rewrite onEvent_calls_notify_body.
      rewrite notify_body_run. cbn [result final effects].
      destruct (IH (S i) (with_handlers
        (remove_all (unregistered_by env ev (public_view w) h)
           (handlers (svc w))) w)) as (Hres & Hcalls & l & Hfin).
      split; [exact Hres|]. split.
      * rewrite Hcalls. reflexivity.
      * exists l. rewrite Hfin. reflexivity.
    + repeat split. exists (handlers (svc w)).
      now rewrite with_handlers_same.
Qed.

Lemma notifyHandlers_result env ev w : result (notifyHandlers env ev w) = Ok tt.
Proof. apply (notify_loop_run env ev). Qed.

(** When no callback unregisters anything, the loop calls the handlers
    from [index] on, one after the other. *)
Lemma notify_loop_undisturbed env ev n i w :
  (length (handlers (svc w)) - i <= n)%nat ->
  undisturbed env ev w ->
  for_of_handlers n i (notify_body env ev) w =
  MkRun (Ok tt) w
    (flat_map (onEvent_turn env ev (public_view w))
       (drop i (handlers (svc w)))).
Proof.
  intros Hn Hq. revert i Hn. induction n as [|n IH]; intros i Hn; simpl.
  - rewrite drop_ge by lia. reflexivity.
  - destruct (handlers (svc w) !! i) as [h|] eqn:E.
    + unfold bind. rewrite notify_body_run. unfold unregistered_by.
      rewrite (Hq h) by (eapply list_elem_of_lookup_2, E). simpl.
      rewrite with_handlers_same, IH by lia.
      rewrite (drop_S _ _ _ E). reflexivity.
    + apply lookup_ge_None in E. rewrite drop_ge by lia. reflexivity.
Qed.

Lemma notifyHandlers_undisturbed env ev w :
  undisturbed env ev w ->
  notifyHandlers env ev w =
  MkRun (Ok tt) w
    (flat_map (onEvent_turn env ev (public_view w)) (handlers (svc w))).
Proof.
  intros Hq. unfold notifyHandlers, for_of.
  apply (notify_loop_undisturbed env ev (length (handlers (svc w))) O w);
    [lia|exact Hq].
Qed.

(** ** The turn budget of the loops

    [for_of] gives its loop as many turns as the registry is long. With
    bodies that never lengthen the registry the loop never runs out of
    them: a larger budget gives the same run. *)

Lemma for_of_budget_enough body n m i w :
  never_longer body ->
  (length (handlers (svc w)) - i <= n)%nat -> (n <= m)%nat ->
  for_of_handlers n i body w = for_of_handlers m i body w.
Proof.
  intros Hbody. revert m i w.
  induction n as [|n IH]; intros m i w Hn Hm.
  - destruct m as [|m]; [reflexivity|]. simpl.
    rewrite (proj2 (lookup_ge_None (handlers (svc w)) i)) by lia.
    reflexivity.
  - destruct m as [|m]; [lia|]. simpl.
    destruct (handlers (svc w) !! i) as [h|] eqn:E; [|reflexivity].
    unfold bind. pose proof (Hbody h w) as Hlen.
    destruct (body h w) as [[[]|e] w1 es1]; [|reflexivity].
    simpl in Hlen. rewrite (IH m (S i) w1) by lia. reflexivity.
Qed.

Lemma run_reaction_never_longer rx w :
  (length (handlers (svc (final (run_reaction rx w))))
   <= length (handlers (svc w)))%nat.
Proof.
  rewrite run_reaction_run. cbn [final with_handlers svc set_handlers handlers].
  apply sublist_length, remove_all_sublist.
Qed.

Lemma notify_body_never_longer env ev : never_longer (notify_body env ev).
Proof.
  intros h w. rewrite notify_body_run.
  cbn [final with_handlers svc set_handlers handlers].
  apply sublist_length, remove_all_sublist.
Qed.

Lemma call_onError_never_longer env e :
  never_longer (fun handler => call_onError env handler e).
Proof.
  intros h w. unfold call_onError. destruct (onError (env h)) as [f|].
  - unfold try_catch, bind, get_view, emit. rewrite run_reaction_run.
    destruct (throws _); cbn [final with_handlers svc set_handlers handlers];
      apply sublist_length, remove_all_sublist.
  - reflexivity.
Qed.

Lemma call_onClose_never_longer env : never_longer (call_onClose env).
Proof.
  intros h w. unfold call_onClose. destruct (onClose (env h)) as [f|].
  - unfold try_catch, bind, get_view, emit. rewrite run_reaction_run.
    destruct (throws _); cbn [final with_handlers svc set_handlers handlers];
      apply sublist_length, remove_all_sublist.
  - reflexivity.
Qed.

(** ** The dispatch of a notification, in two halves *)

Lemma store_token_run change w :
  (match raw_id change with
   | Some token => modify_svc (set_resumeToken (Some token))
   | None => ret tt
   end) w = MkRun (Ok tt) (store_token change w) [].
Proof.
  unfold store_token, after_token. destruct (raw_id change); simpl.
  - reflexivity.
  - destruct w as [[] ?]. reflexivity.
Qed.

Lemma hook_selected hooks ev :
  match operationType ev with
  | INSERT => call_hook HInsert (handleInsert hooks) ev
  | UPDATE => call_hook HUpdate (handleUpdate hooks) ev
  | REPLACE => call_hook HReplace (handleReplace hooks) ev
  | DELETE => call_hook HDelete (handleDelete hooks) ev
  | _ => call_hook HOther (handleOther hooks) ev
  end =
  call_hook (hook_kind (operationType ev)) (hook_for hooks (operationType ev))
    ev.
Proof. destruct (operationType ev); reflexivity. Qed.

(** [handleChange] stores the token and calls the hook; when the hook
    returns it notifies the handlers, and when the hook throws it goes to
    [handleError] instead. *)
Lemma handleChange_run env hooks change w :
  handleChange env hooks change w =
  let event := toEvent change in
  let hk := call_hook (hook_kind (raw_operationType change))
              (hook_for hooks (raw_operationType change)) event
              (store_token change w) in
  match result hk with
  | Ok _ =>
      let nt := notifyHandlers env event (final hk) in
      MkRun (Ok tt) (final nt) (effects hk ++ effects nt)
  | Throw e =>
      let er := handleError env e (final hk) in
      MkRun (result er) (final er)
        (effects hk ++ ELogger LError "Error handling change event"
                    :: effects er)
  end.
Proof.
  unfold handleChange. rewrite hook_selected. cbv zeta.
  change (operationType (toEvent change)) with (raw_operationType change).
  unfold try_catch, bind at 1. rewrite store_token_run.
  unfold bind at 1.
  pose proof (notifyHandlers_result env (toEvent change)) as Hn.
  destruct (call_hook _ _ _ _) as [[[]|e] w1 es1]; cbn [result final effects].
  - specialize (Hn w1).
    destruct (notifyHandlers env (toEvent change) w1) as [rn wn esn].
    simpl in Hn. subst rn. reflexivity.
  - unfold bind, logger, emit.
    destruct (handleError env e w1); reflexivity.
Qed.

(** ** start, and the reconnect continuation *)

Lemma start_run w :
  start w =
  if watching (svc w)
  then MkRun (Ok tt) w [ELogger LWarn "CDC service is already watching"]
  else
    match head (watchOutcomes (host w)) with
    | Some (Some e) =>
        MkRun (Throw e) (refused w)
          [watch_call w; ELogger LError "Failed to start CDC service"]
    | _ =>
        MkRun (Ok tt) (opened w)
          [watch_call w; ELogger LLog "CDC service started successfully"]
    end.
Proof.
  unfold start, bind at 1, get_svc.
  destruct (watching (svc w)); [reflexivity|].
  unfold try_catch, model_watch, bind, emit, get_host, modify_host,
    modify_svc, logger, emit, throw, ret.
  destruct (head (watchOutcomes (host w))) as [[e|]|]; reflexivity.
Qed.

Lemma start_opens w :
  isWatching w = false ->
  (forall e, head (watchOutcomes (host w)) <> Some (Some e)) ->
  start w =
  MkRun (Ok tt) (opened w)
    [watch_call w; ELogger LLog "CDC service started successfully"].
Proof.
  unfold isWatching. intros Hw Hok. rewrite start_run, Hw.
  destruct (head (watchOutcomes (host w))) as [[e|]|] eqn:E; auto.
  now destruct (Hok e).
Qed.

Lemma timer_fire_requests w token :
  resumeToken (svc w) = Some token ->
  watch_requests (effects (timer_fire w)) =
  match timers (host w) with
  | O => []
  | S _ =>
      if watching (svc w) then []
      else [buildChangeStreamOptions
              (set_resumeAfter (Some token) (cdcOptions (svc w)))]
  end.
Proof.
  intros Hr. unfold timer_fire, bind at 1, get_host.
  destruct (timers (host w)) as [|n]; [reflexivity|].
  unfold bind at 1, modify_host.
  unfold reconnect_resume, try_catch, bind at 1, get_svc.
  cbn [svc host]. rewrite Hr.
  unfold bind at 1, modify_svc. cbn [svc host].
  unfold bind at 1. rewrite start_run. cbn [svc host watching set_cdcOptions].
  destruct (watching (svc w)); [reflexivity|].
  cbn [host watchOutcomes set_timers].
  destruct (head (watchOutcomes (host w))) as [[e|]|]; try reflexivity.
  unfold bind, logger, emit, get_svc. cbn [final refused svc].
  destruct (shouldReconnect _); reflexivity.
Qed.

(** C2. Once a notification with a token has been processed, the
    subscription that the reconnect continuation reopens is asked to resume
    after the token of the last such notification: every [model.watch] call
    the continuation makes carries it as [resumeAfter], and when a delay is
    pending and the service is not watching it makes exactly one such call. *)
Theorem C2_reopen_resumes_after_last_token env hooks sigs w token :
  last_token sigs (getResumeToken w) = Some token ->
  Forall (fun req => cso_resumeAfter req = Some token)
    (watch_requests (effects (timer_fire (final (run env hooks sigs w))))) /\
  (timers (host (final (run env hooks sigs w))) <> O ->
   isWatching (final (run env hooks sigs w)) = false ->
   watch_requests (effects (timer_fire (final (run env hooks sigs w)))) =
   [buildChangeStreamOptions
      (set_resumeAfter (Some token)
         (cdcOptions (svc (final (run env hooks sigs w)))))]).
Proof.
  intros Hlast. set (w' := final (run env hooks sigs w)).
  assert (Hr : resumeToken (svc w') = Some token).
  { unfold w'. rewrite <- Hlast. apply run_resumeToken. }
  rewrite (timer_fire_requests w' token Hr). split.
  - destruct (timers (host w')); [constructor|].
    destruct (watching (svc w')); constructor; [reflexivity|constructor].
  - intros Ht Hw. unfold isWatching in Hw. rewrite Hw.
    destruct (timers (host w')); [contradiction|reflexivity].
Qed.

Lemma C2_reopen_resumes_witness :
  last_token
    [StreamChange (insertChange (Some (tokenOf "resume-token-123")));
     StreamChange (insertChange None); StreamClose]
    (getResumeToken watchingWorld) = Some (tokenOf "resume-token-123") /\
  Forall (fun req => cso_resumeAfter req = Some (tokenOf "resume-token-123"))
    (watch_requests (effects (timer_fire (final (run plainEnv baseHooks
      [StreamChange (insertChange (Some (tokenOf "resume-token-123")));
       StreamChange (insertChange None); StreamClose] watchingWorld))))) /\
  watch_requests (effects (timer_fire (final (run plainEnv baseHooks
      [StreamChange (insertChange (Some (tokenOf "resume-token-123")));
       StreamChange (insertChange None); StreamClose] watchingWorld)))) =
   [buildChangeStreamOptions
      (set_resumeAfter (Some (tokenOf "resume-token-123"))
         (cdcOptions (svc (final (run plainEnv baseHooks
      [StreamChange (insertChange (Some (tokenOf "resume-token-123")));
       StreamChange (insertChange None); StreamClose] watchingWorld)))))].
Proof.
  split; [reflexivity|].
  destruct (C2_reopen_resumes_after_last_token plainEnv baseHooks
    [StreamChange (insertChange (Some (tokenOf "resume-token-123")));
     StreamChange (insertChange None); StreamClose] watchingWorld
    (tokenOf "resume-token-123")) as [H1 H2]; [reflexivity|].
  split; [exact H1|]. apply H2; [discriminate|reflexivity].
Defined.

(** ** start and stop, called twice *)

(** C7. [start()] on a service that is watching only writes a warning: it
    makes no [model.watch] call, changes nothing, and returns normally, so
    two calls of [start()] on a service whose store accepts the
    subscription open it once. [stop()] on a service that is not watching
    only writes a warning: it makes no [close] call, changes nothing, and
    returns normally. *)
Theorem C7_start_stop_idempotent env hooks (w1 w2 : World) :
  isWatching w1 = true ->
  isWatching w2 = false ->
  (start w1 =
     MkRun (Ok tt) w1 [ELogger LWarn "CDC service is already watching"] /\
   watch_requests (effects (start w1)) = []) /\
  (stop w2 =
     MkRun (Ok tt) w2 [ELogger LWarn "CDC service is not watching"] /\
   close_calls (effects (stop w2)) = []) /\
  ((forall e, head (watchOutcomes (host w2)) <> Some (Some e)) ->
   length (watch_requests
             (effects (run env hooks [CallStart; CallStart] w2))) = 1%nat).
Proof.
  unfold isWatching. intros H1 H2.
  assert (E1 : forall w, watching (svc w) = true -> start w =
    MkRun (Ok tt) w [ELogger LWarn "CDC service is already watching"]).
  { intros w Hw. rewrite start_run, Hw. reflexivity. }
  assert (E2 : stop w2 =
    MkRun (Ok tt) w2 [ELogger LWarn "CDC service is not watching"]).
  { unfold stop, bind, get_svc. rewrite H2. reflexivity. }
  rewrite (E1 w1 H1), E2. repeat split.
  intros Hok. rewrite !run_cons. cbv zeta. cbn [step effects final].
  rewrite (start_opens w2 H2 Hok). cbn [final effects].
  rewrite (E1 (opened w2) eq_refl). reflexivity.
Qed.

Lemma C7_start_stop_witness :
  isWatching watchingWorld = true /\
  isWatching freshWorld = false /\
  (start watchingWorld =
     MkRun (Ok tt) watchingWorld
       [ELogger LWarn "CDC service is already watching"] /\
   watch_requests (effects (start watchingWorld)) = []) /\
  (stop freshWorld =
     MkRun (Ok tt) freshWorld [ELogger LWarn "CDC service is not watching"] /\
   close_calls (effects (stop freshWorld)) = []) /\
  length (watch_requests
            (effects (run plainEnv baseHooks [CallStart; CallStart]
                        freshWorld))) = 1%nat.
Proof.
  split; [reflexivity|]. split; [reflexivity|].
  destruct (C7_start_stop_idempotent plainEnv baseHooks watchingWorld
              freshWorld) as (H1 & H2 & H3); try reflexivity.
  split; [exact H1|]. split; [exact H2|].
  apply H3. intros e. discriminate.
Defined.

(** ** What the fan-out does and does not do *)

Lemma onEvent_calls_turns env ev v l :
  onEvent_calls (flat_map (onEvent_turn env ev v) l) = l.
Proof.
  induction l as [|h l IH]; [reflexivity|].
  simpl. rewrite onEvent_calls_app, IH. unfold onEvent_turn.
  destruct (throws _); reflexivity.
Qed.

Lemma no_onEvent_calls es : Forall no_onEvent es -> onEvent_calls es = [].
Proof.
  induction 1 as [|e es He _ IH]; [reflexivity|].
  unfold onEvent_calls in *. simpl. unfold no_onEvent in He.
  now rewrite He.
Qed.

Lemma handleError_no_onEvent env e w :
  onEvent_calls (effects (handleError env e w)) = [].
Proof.
  apply no_onEvent_calls.
  apply (stable_handleError env (getResumeToken w) (cdcOptions (svc w))
           (fun _ => True) no_onEvent); try (intros; reflexivity); auto.
  repeat split.
Qed.

Lemma handleError_first env e w :
  exists rest,
    effects (handleError env e w) = ELogger LError "CDC service error" :: rest.
Proof.
  unfold handleError, bind at 1, logger, emit.
  match goal with
  | |- context [match ?m w with _ => _ end] => destruct (m w)
  end.
  eexists. reflexivity.
Qed.

Lemma unregister_logs_are_logs hs l : Forall is_log (unregister_logs hs l).
Proof.
  revert l. induction hs as [|h hs IH]; intros l; simpl; [constructor|].
  apply Forall_app. split; [|apply IH].
  destruct (indexOf h l); repeat constructor.
Qed.

Lemma notifyHandlers_dispatch_only env ev w :
  Forall dispatch_only (effects (notifyHandlers env ev w)).
Proof.
  apply (stable_notifyHandlers env (getResumeToken w) (cdcOptions (svc w))
           (fun _ => True) dispatch_only); try (intros; exact I).
  repeat split.
Qed.





(** ** Handlers that leave the registry alone *)

Lemma plainEnv_undisturbed ev w : undisturbed plainEnv ev w.
Proof. intros h _. reflexivity. Qed.

(** ** Who is called, and how often *)






(** Three registrations of the same handler, as [registerHandler] calls:
    the registry holds it once. *)
Example register_thrice :
  handlers (svc (final (run plainEnv baseHooks
    [CallRegister 7%nat; CallRegister 7%nat; CallRegister 7%nat] freshWorld)))
  = [7%nat].
Proof. reflexivity. Qed.

(** ** Unregistering during a dispatch *)









(** Handler 0 unregisters handler 2: handlers 0 and 1 are called, handler
    2 is not. *)
Example forward_unregister_calls :
  onEvent_calls (effects (notifyHandlers forwardRemovingEnv
                            (toEvent testInsert) watchingWorld)) =
  [0; 1]%nat.
Proof. reflexivity. Qed.


(** ** The options object *)

(** C8, as stated, fails. After a notification and a close, the reconnect
    continuation writes the resume position into the options. *)
Lemma C8_reconnect_writes_resumeAfter :
  resumeAfter (cdcOptions (svc
    (final (run plainEnv baseHooks
      [StreamChange (insertChange (Some (tokenOf "token123"))); StreamClose]
      watchingWorld)))) = None /\
  resumeAfter (cdcOptions (svc
    (final (run plainEnv baseHooks
      [StreamChange (insertChange (Some (tokenOf "token123"))); StreamClose;
       TimerFire]
      watchingWorld)))) = Some (tokenOf "token123") /\
  cdcOptions (svc
    (final (run plainEnv baseHooks
      [StreamChange (insertChange (Some (tokenOf "token123"))); StreamClose;
       TimerFire]
      watchingWorld))) <>
  cdcOptions (svc
    (final (run plainEnv baseHooks
      [StreamChange (insertChange (Some (tokenOf "token123"))); StreamClose]
      watchingWorld))).
Proof.
  split; [reflexivity|]. split; [reflexivity|]. discriminate.
Qed.

(** C8, amended. No operation of the service changes a property of the
    options other than [resumeAfter]: [start], [stop], the registry calls,
    the dispatch of a notification and the handling of [error] and [close]
    leave the options as they are; the reconnect continuation alone writes
    to them, and what it writes is the stored resume position into
    [resumeAfter]. *)
Theorem C8_only_resumeAfter_is_written env hooks sig w :
  set_resumeAfter None (cdcOptions (svc (final (step env hooks sig w)))) =
    set_resumeAfter None (cdcOptions (svc w)) /\
  (sig <> TimerFire ->
   cdcOptions (svc (final (step env hooks sig w))) = cdcOptions (svc w)) /\
  (resumeAfter (cdcOptions (svc (final (step env hooks sig w)))) =
     resumeAfter (cdcOptions (svc w)) \/
   (sig = TimerFire /\
    resumeAfter (cdcOptions (svc (final (step env hooks sig w)))) =
      getResumeToken w)).
Proof.
  destruct (step_stable env hooks sig (getResumeToken w)
              (cdcOptions (svc w)) (fun _ => True)) with (w := w)
    as [(_ & H & _) _]; auto; [repeat split|].
  destruct H as [H|[Hsig H]]; rewrite H.
  - repeat split. now left.
  - unfold resumed. destruct (getResumeToken w) as [token|] eqn:E.
    + split; [reflexivity|]. split; [contradiction|]. right. now split.
    + repeat split. now left.
Qed.

Lemma C8_only_resumeAfter_witness :
  StreamClose <> TimerFire /\
  cdcOptions (svc (final (step plainEnv baseHooks StreamClose watchingWorld)))
    = cdcOptions (svc watchingWorld).
Proof.
  split; [discriminate|].
  apply (C8_only_resumeAfter_is_written plainEnv baseHooks StreamClose
           watchingWorld).
  discriminate.
Defined.

(** ** stop() and the pending reconnect *)

Lemma stop_run w :
  stop w =
  if negb (watching (svc w))
  then MkRun (Ok tt) w [ELogger LWarn "CDC service is not watching"]
  else
    match changeStream (svc w) with
    | Some sid =>
        match head (closeOutcomes (host w)) with
        | Some (Some e) =>
            MkRun (Throw e) {| svc := svc w; host := next_close (host w) |}
              [ECloseStream sid; ELogger LError "Failed to stop CDC service"]
        | _ =>
            MkRun (Ok tt)
              {| svc := set_watching false (set_changeStream None (svc w));
                 host := next_close (host w) |}
              [ECloseStream sid;
               ELogger LLog "CDC service stopped successfully"]
        end
    | None =>
        MkRun (Ok tt) {| svc := set_watching false (svc w); host := host w |}
          [ELogger LLog "CDC service stopped successfully"]
    end.
Proof.
  unfold stop, bind at 1, get_svc.
  destruct (negb (watching (svc w))); [reflexivity|].
  unfold try_catch, stream_close, bind, emit, get_host, modify_host,
    modify_svc, logger, emit, throw, ret.
  destruct (changeStream (svc w)); [|reflexivity].
  destruct (head (closeOutcomes (host w))) as [[e|]|]; reflexivity.
Qed.

(** [stop()] has no effect on a reconnect delay that is running. *)
Lemma stop_keeps_timers w : timers (host (final (stop w))) = timers (host w).
Proof.
  rewrite stop_run. destruct (negb (watching (svc w))); [reflexivity|].
  destruct (changeStream (svc w)); [|reflexivity].
  destruct (head (closeOutcomes (host w))) as [[e|]|]; reflexivity.
Qed.

(** C4, at the failing input. [stop()] never touches a reconnect delay
    that is running. The service is stopped while the delay is running,
    after an [error] and after a [close]: the delay is still pending when
    [stop()] has returned; when it elapses the continuation calls
    [model.watch] and the service is watching again. *)
Theorem C4_stop_leaves_pending_reconnect :
  (forall w, timers (host (final (stop w))) = timers (host w)) /\
  (isWatching stoppedWhileWaiting = false /\
   timers (host stoppedWhileWaiting) = 1%nat /\
   length (watch_requests (effects (timer_fire stoppedWhileWaiting))) = 1%nat /\
   isWatching (final (timer_fire stoppedWhileWaiting)) = true) /\
  (isWatching stoppedAfterClose = false /\
   timers (host stoppedAfterClose) = 1%nat /\
   length (watch_requests (effects (timer_fire stoppedAfterClose))) = 1%nat /\
   isWatching (final (timer_fire stoppedAfterClose)) = true).
Proof. split; [exact stop_keeps_timers|]. repeat split. Qed.

(** ** An error of the stream *)

Lemma for_of_registry_only (P : Effect -> Prop) body :
  (forall h w, exists l,
     result (body h w) = Ok tt /\
     final (body h w) = with_handlers l w /\
     Forall P (effects (body h w))) ->
  forall n i w, exists l,
    result (for_of_handlers n i body w) = Ok tt /\
    final (for_of_handlers n i body w) = with_handlers l w /\
    Forall P (effects (for_of_handlers n i body w)).
Proof.
  intros Hbody. induction n as [|n IH]; intros i w; simpl.
  - exists (handlers (svc w)). rewrite with_handlers_same.
    repeat split. constructor.
  - destruct (handlers (svc w) !! i) as [h|].
    + destruct (Hbody h w) as (l1 & Hr1 & Hf1 & He1).
      rewrite (bind_Ok _ _ w tt Hr1). cbn [result final effects].
      destruct (IH (S i) (final (body h w))) as (l2 & Hr2 & Hf2 & He2).
      exists l2. split; [exact Hr2|]. split.
      * rewrite Hf2, Hf1. reflexivity.
      * apply Forall_app. auto.
    + exists (handlers (svc w)). rewrite with_handlers_same.
      repeat split. constructor.
Qed.

Lemma call_onError_registry_only env e h w :
  exists l,
    result (call_onError env h e w) = Ok tt /\
    final (call_onError env h e w) = with_handlers l w /\
    Forall error_only (effects (call_onError env h e w)).
Proof.
  unfold call_onError. destruct (onError (env h)) as [f|].
  - unfold try_catch, bind, get_view, emit. rewrite run_reaction_run.
    assert (Hlogs : Forall error_only
      (unregister_logs (unregisters (f e (public_view w))) (handlers (svc w)))).
    { eapply Forall_impl; [apply unregister_logs_are_logs|].
      intros [] H; try contradiction; exact I. }
    destruct (throws (f e (public_view w))); cbn [result final effects];
      eexists; (split; [reflexivity|]); (split; [reflexivity|]).
    + constructor; [exact I|]. apply Forall_app. split; [exact Hlogs|].
      repeat constructor.
    + constructor; [exact I|]. rewrite ?app_nil_r. exact Hlogs.
  - exists (handlers (svc w)). rewrite with_handlers_same.
    repeat split. constructor.
Qed.

(** With [autoReconnect] off, [handleError] tells the handlers and does
    nothing else: no [model.watch], no timer, and no field of the service
    is written; in particular [watching] stays as it was. *)
Lemma handleError_without_autoReconnect env e w :
  default false (autoReconnect (cdcOptions (svc w))) = false ->
  exists l es,
    handleError env e w =
      MkRun (Ok tt) (with_handlers l w)
        (ELogger LError "CDC service error" :: es) /\
    Forall error_only es.
Proof.
  intros Hauto.
  destruct (for_of_registry_only error_only
              (fun handler => call_onError env handler e)
              (fun h w => call_onError_registry_only env e h w)
              (length (handlers (svc w))) 0 w) as (l & Hr & Hf & He).
  change (for_of_handlers (length (handlers (svc w))) 0
            (fun handler => call_onError env handler e) w)
    with (for_of (fun handler => call_onError env handler e) w) in *.
  exists l, (effects (for_of (fun handler => call_onError env handler e) w)).
  split; [|exact He].
  unfold handleError.
  rewrite (bind_Ok (logger LError "CDC service error") _ w tt eq_refl).
  cbn [result final effects logger emit].
  rewrite (bind_Ok _ _ w tt Hr). cbn [result final effects].
  rewrite Hf. unfold bind, get_svc.
  cbn [svc with_handlers set_handlers cdcOptions].
  rewrite Hauto. cbn [andb]. unfold ret.
  now rewrite !app_nil_r.
Qed.

Lemma reconnect_run w :
  reconnect w =
  MkRun (Ok tt)
    {| svc := set_reconnectAttempts (reconnectAttempts (svc w) + 1) (svc w);
       host := set_timers (S (timers (host w))) (host w) |}
    [ELogAttempt (reconnectAttempts (svc w) + 1)
       (truthyZ (maxReconnectAttempts (cdcOptions (svc w))));
     ESetTimeout (orZ (reconnectDelay (cdcOptions (svc w))) 1000)].
Proof. reflexivity. Qed.

(** [handleError] never writes [watching], with or without
    [autoReconnect]. *)
Lemma handleError_keeps_watching env e w :
  isWatching (final (handleError env e w)) = isWatching w.
Proof.
  destruct (for_of_registry_only error_only
              (fun handler => call_onError env handler e)
              (fun h w => call_onError_registry_only env e h w)
              (length (handlers (svc w))) 0 w) as (l & Hr & Hf & He).
  change (for_of_handlers (length (handlers (svc w))) 0
            (fun handler => call_onError env handler e) w)
    with (for_of (fun handler => call_onError env handler e) w) in *.
  unfold handleError.
  rewrite (bind_Ok (logger LError "CDC service error") _ w tt eq_refl).
  cbn [result final effects logger emit].
  rewrite (bind_Ok _ _ w tt Hr). cbn [result final effects].
  rewrite Hf. unfold bind, get_svc.
  destruct (_ && _)%bool; [rewrite reconnect_run|]; reflexivity.
Qed.

(** C5, at the failing input. [handleError] never clears [watching]. A
    service built with [autoReconnect: false] is watching when its stream
    emits [error]: no subscription is reopened and no reconnect is
    scheduled, but [isWatching()] still returns [true]. *)
Theorem C5_error_leaves_service_watching :
  (forall env e w, isWatching (final (handleError env e w)) = isWatching w) /\
  autoReconnect (cdcOptions (svc watchingNoReconnect)) = Some false /\
  isWatching watchingNoReconnect = true /\
  watch_requests
    (effects (handleError plainEnv "Connection lost" watchingNoReconnect))
    = [] /\
  timers (host (final (handleError plainEnv "Connection lost"
                         watchingNoReconnect))) = O /\
  onError_calls
    (effects (handleError plainEnv "Connection lost" watchingNoReconnect))
    = [0%nat] /\
  isWatching (final (handleError plainEnv "Connection lost"
                       watchingNoReconnect)) = true.
Proof. split; [exact handleError_keeps_watching|]. repeat split. Qed.

(** With [autoReconnect] on, the same omission makes the reconnect that
    follows an [error] reopen nothing: [watching] is still set when the
    delay elapses, so [start()] returns at once and the continuation
    reports success. *)
Example reconnect_after_error_reopens_nothing :
  effects (timer_fire (final (run plainEnv baseHooks
             [CallStart; StreamError "Connection lost"] freshWorld))) =
  [ELogger LWarn "CDC service is already watching";
   ELogger LLog "Reconnected successfully"].
Proof. reflexivity. Qed.

(** * Further properties of the service *)

(** ** The shape of error and close handling *)

Lemma reconnect_decision_run w :
  (s <- get_svc ;;
   if (default false (autoReconnect (cdcOptions s)) && shouldReconnect s)%bool
   then reconnect else ret tt) w =
  MkRun (Ok tt)
    (if wants_reconnect (svc w) then scheduled w else w)
    (if wants_reconnect (svc w) then reconnect_effects w else []).
Proof.
  unfold bind, get_svc, wants_reconnect.
  destruct (_ && _)%bool; [rewrite reconnect_run|]; reflexivity.
Qed.

Lemma call_onClose_registry_only env h w :
  exists l,
    result (call_onClose env h w) = Ok tt /\
    final (call_onClose env h w) = with_handlers l w /\
    Forall close_only (effects (call_onClose env h w)).
Proof.
  unfold call_onClose. destruct (onClose (env h)) as [f|].
  - unfold try_catch, bind, get_view, emit. rewrite run_reaction_run.
    assert (Hlogs : Forall close_only
      (unregister_logs (unregisters (f (public_view w))) (handlers (svc w)))).
    { eapply Forall_impl; [apply unregister_logs_are_logs|].
      intros [] H; try contradiction; exact I. }
    destruct (throws (f (public_view w))); cbn [result final effects];
      eexists; (split; [reflexivity|]); (split; [reflexivity|]).
    + constructor; [exact I|]. apply Forall_app. split; [exact Hlogs|].
      repeat constructor.
    + constructor; [exact I|]. rewrite ?app_nil_r. exact Hlogs.
  - exists (handlers (svc w)). rewrite with_handlers_same.
    repeat split. constructor.
Qed.

(** [handleError]: the log line, the [onError] calls, and the reconnect
    when it is wanted. It never throws and writes nothing but the registry,
    the attempt counter and the timer. *)
Lemma handleError_shape env e w :
  exists l es,
    Forall error_only es /\
    handleError env e w =
    MkRun (Ok tt)
      (if wants_reconnect (svc w) then scheduled (with_handlers l w)
       else with_handlers l w)
      (ELogger LError "CDC service error" ::
       es ++ (if wants_reconnect (svc w) then reconnect_effects w else [])).
Proof.
  destruct (for_of_registry_only error_only
              (fun handler => call_onError env handler e)
              (fun h w => call_onError_registry_only env e h w)
              (length (handlers (svc w))) 0 w) as (l & Hr & Hf & He).
  change (for_of_handlers (length (handlers (svc w))) 0
            (fun handler => call_onError env handler e) w)
    with (for_of (fun handler => call_onError env handler e) w) in *.
  exists l, (effects (for_of (fun handler => call_onError env handler e) w)).
  split; [exact He|].
  unfold handleError.
  rewrite (bind_Ok (logger LError "CDC service error") _ w tt eq_refl).
  cbn [result final effects logger emit].
  rewrite (bind_Ok _ _ w tt Hr). cbn [result final effects].
  rewrite Hf, reconnect_decision_run. cbn [result final effects].
  reflexivity.
Qed.

(** [handleClose]: the log line, [watching] cleared, the [onClose] calls,
    and the reconnect when it is wanted. *)
Lemma handleClose_shape env w :
  exists l es,
    Forall close_only es /\
    handleClose env w =
    MkRun (Ok tt)
      (if wants_reconnect (svc w) then scheduled (with_handlers l (closed w))
       else with_handlers l (closed w))
      (ELogger LLog "Change stream closed" ::
       es ++ (if wants_reconnect (svc w) then reconnect_effects w else [])).
Proof.
  destruct (for_of_registry_only close_only (call_onClose env)
              (fun h w => call_onClose_registry_only env h w)
              (length (handlers (svc (closed w)))) 0 (closed w))
    as (l & Hr & Hf & He).
  change (for_of_handlers (length (handlers (svc (closed w)))) 0
            (call_onClose env) (closed w))
    with (for_of (call_onClose env) (closed w)) in *.
  exists l, (effects (for_of (call_onClose env) (closed w))).
  split; [exact He|].
  unfold handleClose.
  rewrite (bind_Ok (logger LLog "Change stream closed") _ w tt eq_refl).
  cbn [result final effects logger emit].
  rewrite (bind_Ok (modify_svc (set_watching false)) _ w tt eq_refl).
  cbn [result final effects modify_svc]. fold (closed w).
  rewrite (bind_Ok _ _ (closed w) tt Hr). cbn [result final effects].
  rewrite Hf, reconnect_decision_run. cbn [result final effects].
  reflexivity.
Qed.

(** The reconnect continuation, case by case. *)
Lemma reconnect_resume_run w :
  reconnect_resume w =
  let w1 := resume_options w in
  if watching (svc w) then
    MkRun (Ok tt) w1
      [ELogger LWarn "CDC service is already watching";
       ELogger LLog "Reconnected successfully"]
  else
    match head (watchOutcomes (host w)) with
    | Some (Some e) =>
        if shouldReconnect (svc w) then
          MkRun (Ok tt) (scheduled (refused w1))
            ([watch_call w1; ELogger LError "Failed to start CDC service";
              ELogger LError "Reconnection failed"] ++ reconnect_effects w)
        else
          MkRun (Ok tt) (refused w1)
            [watch_call w1; ELogger LError "Failed to start CDC service";
             ELogger LError "Reconnection failed";
             ELogger LError "Maximum reconnection attempts reached"]
    | _ =>
        MkRun (Ok tt) (opened w1)
          [watch_call w1; ELogger LLog "CDC service started successfully";
           ELogger LLog "Reconnected successfully"]
    end.
Proof.
  unfold reconnect_resume, try_catch, bind at 1, get_svc.
  assert (E : (match resumeToken (svc w) with
               | Some token =>
                   modify_svc (fun s =>
                     set_cdcOptions
                       (set_resumeAfter (Some token) (cdcOptions s)) s)
               | None => ret tt
               end) w = MkRun (Ok tt) (resume_options w) []).
  { unfold resume_options. destruct (resumeToken (svc w)); reflexivity. }
  unfold bind at 1. rewrite E. unfold bind at 1. rewrite start_run.
  assert (Hw : watching (svc (resume_options w)) = watching (svc w))
    by (unfold resume_options; destruct (resumeToken (svc w)); reflexivity).
  assert (Hh : host (resume_options w) = host w)
    by (unfold resume_options; destruct (resumeToken (svc w)); reflexivity).
  assert (Hs : shouldReconnect (svc (resume_options w)) =
               shouldReconnect (svc w))
    by (unfold resume_options; destruct (resumeToken (svc w)); reflexivity).
  assert (Hre : reconnect_effects (refused (resume_options w)) =
                reconnect_effects w)
    by (unfold resume_options; destruct (resumeToken (svc w)); reflexivity).
  cbv zeta. rewrite Hw, Hh.
  destruct (watching (svc w)); [reflexivity|].
  destruct (head (watchOutcomes (host w))) as [[e|]|]; try reflexivity.
  unfold bind at 1, logger, emit. unfold bind at 1, get_svc.
  cbn [final svc refused]. rewrite Hs.
  destruct (shouldReconnect (svc w)); [|reflexivity].
  rewrite reconnect_run. rewrite <- Hre. reflexivity.
Qed.

Lemma timer_fire_run w :
  timer_fire w =
  match timers (host w) with
  | O => MkRun (Ok tt) w []
  | S _ => reconnect_resume (timer_taken w)
  end.
Proof.
  unfold timer_fire, bind at 1, get_host.
  destruct (timers (host w)) as [|n] eqn:E; [reflexivity|].
  unfold bind, modify_host, timer_taken. rewrite E. simpl pred.
  destruct (reconnect_resume _); reflexivity.
Qed.

(** ** Reading effects of one kind *)

Lemma omap_nothing {A} (f : Effect -> option A) (P : Effect -> Prop) es :
  (forall e, P e -> f e = None) -> Forall P es -> omap f es = [].
Proof.
  intros Hf. induction 1 as [|e es He _ IH]; [reflexivity|].
  change (omap f (e :: es))
    with (match f e with Some y => y :: omap f es | None => omap f es end).
  now rewrite (Hf e He).
Qed.

Lemma error_only_no_timeout e : error_only e -> timeout_of e = None.
Proof. destruct e; simpl; tauto. Qed.

Lemma close_only_no_timeout e : close_only e -> timeout_of e = None.
Proof. destruct e; simpl; tauto. Qed.

Lemma error_only_no_watch e : error_only e -> watch_request e = None.
Proof. destruct e; simpl; tauto. Qed.

Lemma close_only_no_watch e : close_only e -> watch_request e = None.
Proof. destruct e; simpl; tauto. Qed.

Lemma error_only_no_hook e : error_only e -> hook_call e = None.
Proof. destruct e; simpl; tauto. Qed.

Lemma dispatch_only_no_hook e : dispatch_only e -> hook_call e = None.
Proof. destruct e; simpl; tauto. Qed.

Lemma is_log_no_hook e : is_log e -> hook_call e = None.
Proof. destruct e; simpl; tauto. Qed.

(** ** Signals never throw *)

(** X1. Whatever the hooks, the handlers and the store do, the listeners of
    the stream and the reconnect timer never throw: [handleChange],
    [handleError], [handleClose] and the reconnect continuation always
    return normally. Only [start()] and [stop()] can throw. *)
Theorem stream_signals_never_throw env hooks change e w :
  result (handleChange env hooks change w) = Ok tt /\
  result (handleError env e w) = Ok tt /\
  result (handleClose env w) = Ok tt /\
  result (timer_fire w) = Ok tt.
Proof.
  assert (He : forall e w, result (handleError env e w) = Ok tt).
  { intros e' w'. destruct (handleError_shape env e' w') as (l & es & _ & ->).
    reflexivity. }
  split; [|split; [apply He|split]].
  - rewrite handleChange_run. cbv zeta.
    destruct (result (call_hook _ _ _ _)) as [[]|e']; [reflexivity|].
    cbn [result]. apply He.
  - destruct (handleClose_shape env w) as (l & es & _ & ->). reflexivity.
  - rewrite timer_fire_run. destruct (timers (host w)); [reflexivity|].
    rewrite reconnect_resume_run. cbv zeta.
    destruct (watching _); [reflexivity|].
    destruct (head _) as [[e'|]|]; try reflexivity.
    destruct (shouldReconnect _); reflexivity.
Qed.

(** ** start() and stop() *)

(** X2. When [model.watch] throws, [start()] logs the failure and throws
    the same error; no field of the service is written (it is still not
    watching, holds no new stream, and its attempt counter is as it was). *)
Theorem start_failure_rethrows w e :
  isWatching w = false ->
  head (watchOutcomes (host w)) = Some (Some e) ->
  result (start w) = Throw e /\
  svc (final (start w)) = svc w /\
  effects (start w) =
    [watch_call w; ELogger LError "Failed to start CDC service"].
Proof.
  unfold isWatching. intros Hw Hhead. rewrite start_run, Hw, Hhead.
  repeat split.
Qed.

(** X3. When the store accepts the subscription, [start()] on a service
    that is not watching makes one [model.watch] call with the pipeline
    and options built from [cdcOptions], keeps the stream, sets
    [watching], and resets the attempt counter to zero; handlers, resume
    position and options are left as they were. *)
Theorem start_success_resets_attempts w :
  isWatching w = false ->
  (forall e, head (watchOutcomes (host w)) <> Some (Some e)) ->
  result (start w) = Ok tt /\
  isWatching (final (start w)) = true /\
  reconnectAttempts (svc (final (start w))) = 0 /\
  changeStream (svc (final (start w))) = Some (nextStream (host w)) /\
  handlers (svc (final (start w))) = handlers (svc w) /\
  getResumeToken (final (start w)) = getResumeToken w /\
  cdcOptions (svc (final (start w))) = cdcOptions (svc w) /\
  effects (start w) =
    [EWatch (default [] (pipeline (cdcOptions (svc w))))
       (buildChangeStreamOptions (cdcOptions (svc w)));
     ELogger LLog "CDC service started successfully"].
Proof.
  intros Hw Hok. rewrite (start_opens w Hw Hok). repeat split.
Qed.

(** X4. [start()] followed by [stop()]: [stop()] closes the very stream that
    [start()] opened, once, and the service ends not watching and holding
    no stream, with its handlers, resume position and options as before. *)
Theorem start_then_stop env hooks w :
  isWatching w = false ->
  (forall e, head (watchOutcomes (host w)) <> Some (Some e)) ->
  (forall e, head (closeOutcomes (host w)) <> Some (Some e)) ->
  close_calls (effects (run env hooks [CallStart; CallStop] w)) =
    [nextStream (host w)] /\
  length (watch_requests (effects (run env hooks [CallStart; CallStop] w)))
    = 1%nat /\
  isWatching (final (run env hooks [CallStart; CallStop] w)) = false /\
  changeStream (svc (final (run env hooks [CallStart; CallStop] w))) = None /\
  handlers (svc (final (run env hooks [CallStart; CallStop] w))) =
    handlers (svc w) /\
  getResumeToken (final (run env hooks [CallStart; CallStop] w)) =
    getResumeToken w /\
  cdcOptions (svc (final (run env hooks [CallStart; CallStop] w))) =
    cdcOptions (svc w).
Proof.
  intros Hw Hok Hclose. rewrite !run_cons. cbv zeta. cbn [step].
  rewrite (start_opens w Hw Hok). cbn [final effects].
  rewrite stop_run. cbn [opened svc host watching changeStream negb
    set_reconnectAttempts set_watching set_changeStream fresh_stream
    next_watch closeOutcomes].
  destruct (head (closeOutcomes (host w))) as [[e|]|] eqn:E;
    [now destruct (Hclose e)| |]; repeat split.
Qed.

(** X5. When [close()] throws, [stop()] logs the failure and throws the
    same error, and the service is left as it was: still watching and
    still holding the stream, so that calling [stop()] again calls
    [close()] on that stream again. *)
Theorem stop_failure_rethrows w sid e :
  isWatching w = true ->
  changeStream (svc w) = Some sid ->
  head (closeOutcomes (host w)) = Some (Some e) ->
  result (stop w) = Throw e /\
  svc (final (stop w)) = svc w /\
  effects (stop w) =
    [ECloseStream sid; ELogger LError "Failed to stop CDC service"] /\
  close_calls (effects (stop (final (stop w)))) = [sid].
Proof.
  unfold isWatching. intros Hw Hs Hhead.
  assert (E : stop w =
    MkRun (Throw e) {| svc := svc w; host := next_close (host w) |}
      [ECloseStream sid; ELogger LError "Failed to stop CDC service"]).
  { rewrite stop_run, Hw, Hs, Hhead. reflexivity. }
  rewrite E. cbn [result final effects svc]. repeat split.
  rewrite stop_run. cbn [svc host]. rewrite Hw, Hs. cbn [negb].
  destruct (head (closeOutcomes (next_close (host w)))) as [[e'|]|];
    reflexivity.
Qed.

Lemma start_failure_rethrows_witness :
  isWatching (refusingWorld noOptions 1) = false /\
  head (watchOutcomes (host (refusingWorld noOptions 1))) =
    Some (Some "refused") /\
  result (start (refusingWorld noOptions 1)) = Throw "refused" /\
  svc (final (start (refusingWorld noOptions 1))) =
    svc (refusingWorld noOptions 1) /\
  effects (start (refusingWorld noOptions 1)) =
    [watch_call (refusingWorld noOptions 1);
     ELogger LError "Failed to start CDC service"].
Proof.
  split; [reflexivity|]. split; [reflexivity|].
  apply (start_failure_rethrows (refusingWorld noOptions 1) "refused");
    reflexivity.
Defined.

Lemma start_success_resets_attempts_witness :
  isWatching freshWorld = false /\
  isWatching (final (start freshWorld)) = true /\
  reconnectAttempts (svc (final (start freshWorld))) = 0 /\
  changeStream (svc (final (start freshWorld))) = Some 0%nat.
Proof.
  split; [reflexivity|].
  destruct (start_success_resets_attempts freshWorld)
    as (_ & H1 & H2 & H3 & _); [reflexivity|intros e; discriminate|].
  split; [exact H1|]. split; [exact H2|exact H3].
Defined.

Lemma start_then_stop_witness :
  isWatching freshWorld = false /\
  close_calls (effects (run plainEnv baseHooks [CallStart; CallStop]
                          freshWorld)) = [0%nat] /\
  isWatching (final (run plainEnv baseHooks [CallStart; CallStop]
                       freshWorld)) = false.
Proof.
  split; [reflexivity|].
  destruct (start_then_stop plainEnv baseHooks freshWorld)
    as (H1 & _ & H2 & _);
    [reflexivity|intros e; discriminate|intros e; discriminate|].
  split; [exact H1|exact H2].
Defined.

Lemma stop_failure_rethrows_witness :
  isWatching closeFailingWorld = true /\
  changeStream (svc closeFailingWorld) = Some 0%nat /\
  head (closeOutcomes (host closeFailingWorld)) = Some (Some "close failed") /\
  result (stop closeFailingWorld) = Throw "close failed" /\
  isWatching (final (stop closeFailingWorld)) = true /\
  close_calls (effects (stop (final (stop closeFailingWorld)))) = [0%nat].
Proof.
  split; [reflexivity|]. split; [reflexivity|]. split; [reflexivity|].
  destruct (stop_failure_rethrows closeFailingWorld 0%nat "close failed")
    as (H1 & H2 & _ & H3); [reflexivity|reflexivity|reflexivity|].
  split; [exact H1|]. split; [|exact H3].
  unfold isWatching. now rewrite H2.
Defined.

(** ** Close and error: the reconnect decision *)

Lemma wants_reconnect_spec s :
  wants_reconnect s = true <->
  autoReconnect (cdcOptions s) = Some true /\
  (maxAttempts s = 0 \/ reconnectAttempts s < maxAttempts s).
Proof.
  unfold wants_reconnect, shouldReconnect, maxAttempts.
  rewrite andb_true_iff, orb_true_iff, Z.eqb_eq, Z.ltb_lt.
  destruct (autoReconnect (cdcOptions s)) as [[]|]; simpl; intuition congruence.
Qed.

(** X6. A [close] from the stream always clears [watching] and never opens
    a stream itself. It schedules a reconnect exactly when [autoReconnect]
    is on and the attempt budget allows it ([maxReconnectAttempts] is 0 or
    absent, or fewer attempts than that were made): then it counts one
    attempt and sets one timer, whose delay is [reconnectDelay], or 1000
    when that is 0 or absent. Otherwise it sets no timer and leaves the
    counter alone. *)
Theorem close_clears_watching_and_schedules env w :
  isWatching (final (handleClose env w)) = false /\
  watch_requests (effects (handleClose env w)) = [] /\
  timers (host (final (handleClose env w))) =
    (if wants_reconnect (svc w) then S (timers (host w))
     else timers (host w)) /\
  reconnectAttempts (svc (final (handleClose env w))) =
    (if wants_reconnect (svc w) then reconnectAttempts (svc w) + 1
     else reconnectAttempts (svc w)) /\
  timeouts (effects (handleClose env w)) =
    (if wants_reconnect (svc w)
     then [orZ (reconnectDelay (cdcOptions (svc w))) 1000] else []) /\
  (wants_reconnect (svc w) = true <->
   autoReconnect (cdcOptions (svc w)) = Some true /\
   (maxAttempts (svc w) = 0 \/
    reconnectAttempts (svc w) < maxAttempts (svc w))).
Proof.
  destruct (handleClose_shape env w) as (l & es & Hes & ->).
  cbn [final effects].
  assert (Ht : timeouts es = [])
    by (apply (omap_nothing _ close_only); auto using close_only_no_timeout).
  assert (Hq : watch_requests es = [])
    by (apply (omap_nothing _ close_only); auto using close_only_no_watch).
  unfold timeouts, watch_requests in *.
  change (ELogger LLog "Change stream closed" :: es ++ ?t)
    with ([ELogger LLog "Change stream closed"] ++ es ++ t).
  rewrite !omap_app, Ht, Hq.
  split; [|split; [|split; [|split; [|split;
    [|apply wants_reconnect_spec]]]]];
    destruct (wants_reconnect (svc w)); reflexivity.
Qed.

(** ** The attempt counter *)

Lemma wants_reconnect_should s :
  wants_reconnect s = true -> shouldReconnect s = true.
Proof. unfold wants_reconnect. now intros (_ & H)%andb_true_iff. Qed.

Lemma resume_options_budget w :
  maxAttempts (svc (resume_options w)) = maxAttempts (svc w) /\
  reconnectAttempts (svc (resume_options w)) = reconnectAttempts (svc w) /\
  shouldReconnect (svc (resume_options w)) = shouldReconnect (svc w) /\
  watching (svc (resume_options w)) = watching (svc w) /\
  host (resume_options w) = host w.
Proof. unfold resume_options. destruct (resumeToken (svc w)); repeat split. Qed.

(** One signal leaves the limit alone, and either leaves the counter
    alone, resets it, or counts one attempt that the limit allowed. *)
Lemma step_attempts env hooks sig w :
  maxAttempts (svc (final (step env hooks sig w))) = maxAttempts (svc w) /\
  (reconnectAttempts (svc (final (step env hooks sig w))) =
     reconnectAttempts (svc w) \/
   reconnectAttempts (svc (final (step env hooks sig w))) = 0 \/
   (shouldReconnect (svc w) = true /\
    reconnectAttempts (svc (final (step env hooks sig w))) =
      reconnectAttempts (svc w) + 1)).
Proof.
  assert (Herr : forall e w0,
    maxAttempts (svc (final (handleError env e w0))) = maxAttempts (svc w0) /\
    (reconnectAttempts (svc (final (handleError env e w0))) =
       reconnectAttempts (svc w0) \/
     reconnectAttempts (svc (final (handleError env e w0))) = 0 \/
     (shouldReconnect (svc w0) = true /\
      reconnectAttempts (svc (final (handleError env e w0))) =
        reconnectAttempts (svc w0) + 1))).
  { intros e w0. destruct (handleError_shape env e w0) as (l & es & _ & ->).
    cbn [final]. destruct (wants_reconnect (svc w0)) eqn:E.
    - apply wants_reconnect_should in E. split; [reflexivity|]. now right; right.
    - split; [reflexivity|]. now left. }
  destruct sig as [| |h|h| |change|e| |]; cbn [step].
  - rewrite start_run. destruct (watching (svc w)); [now split; [|left]|].
    destruct (head _) as [[e|]|]; cbn [final];
      (split; [reflexivity|]); auto.
  - rewrite stop_run. destruct (negb _); [now split; [|left]|].
    destruct (changeStream (svc w)); [destruct (head _) as [[e|]|]|];
      cbn [final]; (split; [reflexivity|]); now left.
  - rewrite registerHandler_run. destruct (decide _); now split; [|left].
  - rewrite unregisterHandler_run. now split; [|left].
  - unfold onModuleDestroy. rewrite stop_run.
    destruct (negb _); [now split; [|left]|].
    destruct (changeStream (svc w)); [destruct (head _) as [[e|]|]|];
      cbn [final]; (split; [reflexivity|]); now left.
  - rewrite handleChange_run. cbv zeta. rewrite call_hook_run.
    cbn [result final effects].
    destruct (throws _) as [e|].
    + cbn [final].
      match goal with
      | |- context [handleError env e ?w0] => exact (Herr e w0)
      end.
    + cbn [final]. unfold notifyHandlers, for_of.
      match goal with
      | |- context [for_of_handlers ?n 0 ?b ?w0] =>
          destruct (notify_loop_run env (toEvent change) n 0 w0)
            as (_ & _ & l & Hl);
          change b with (notify_body env (toEvent change));
          rewrite Hl
      end.
      now split; [|left].
  - apply Herr.
  - destruct (handleClose_shape env w) as (l & es & _ & ->).
    cbn [final]. destruct (wants_reconnect (svc w)) eqn:E.
    + apply wants_reconnect_should in E. split; [reflexivity|]. now right; right.
    + split; [reflexivity|]. now left.
  - rewrite timer_fire_run. destruct (timers (host w)) eqn:Et;
      [now split; [|left]|].
    rewrite reconnect_resume_run. cbv zeta.
    destruct (resume_options_budget (timer_taken w))
      as (Hm & Ha & Hs & Hw & Hh).
    cbn [timer_taken svc] in Hm, Ha, Hs, Hw.
    destruct (watching (svc (timer_taken w))).
    { cbn [final]. split; [exact Hm|]. left. exact Ha. }
    destruct (head _) as [[e|]|].
    + destruct (shouldReconnect (svc (timer_taken w))) eqn:E; cbn [final].
      * split; [exact Hm|]. right; right. split; [exact E|].
        cbn. now rewrite Ha.
      * split; [exact Hm|]. left. exact Ha.
    + cbn [final]. split; [exact Hm|]. right; left. reflexivity.
    + cbn [final]. split; [exact Hm|]. right; left. reflexivity.
Qed.

Lemma run_budget env hooks sigs w :
  within_budget w ->
  within_budget (final (run env hooks sigs w)) /\
  maxAttempts (svc (final (run env hooks sigs w))) = maxAttempts (svc w).
Proof.
  revert w. induction sigs as [|sig sigs IH]; intros w Hb.
  - split; [exact Hb|reflexivity].
  - rewrite run_cons. cbv zeta. cbn [final].
    destruct (step_attempts env hooks sig w) as (Hm & Ha).
    assert (Hb' : within_budget (final (step env hooks sig w))).
    { destruct Hb as (H0 & Hle). unfold within_budget. rewrite Hm.
      unfold shouldReconnect in Ha. fold (maxAttempts (svc w)) in Ha.
      destruct Ha as [->| [->|(Hs & ->)]]; [now split|lia|].
      apply orb_true_iff in Hs. rewrite Z.eqb_eq, Z.ltb_lt in Hs. lia. }
    destruct (IH _ Hb') as (H1 & H2). split; [exact H1|]. now rewrite H2.
Qed.

(** X7. The attempt counter stays within its budget, whatever happens to a
    service after its construction: it is never negative, and when
    [maxReconnectAttempts] is a positive limit it never exceeds it. The
    limit itself is the one the service was built with: no operation
    changes it. *)
Theorem attempts_stay_within_budget env hooks options watches closes sigs :
  let w := final (run env hooks sigs (newWorld options watches closes)) in
  0 <= reconnectAttempts (svc w) /\
  (0 < maxAttempts (svc w) -> reconnectAttempts (svc w) <= maxAttempts (svc w)) /\
  maxAttempts (svc w) = maxAttempts (constructor options).
Proof.
  cbv zeta.
  destruct (run_budget env hooks sigs (newWorld options watches closes))
    as ((H0 & H1) & H2).
  - split; [reflexivity|]. cbn. lia.
  - repeat split; [exact H0|exact H1|exact H2].
Qed.

(** ** Giving up *)

(** A reconnect timer that fires on a service that is not watching, when
    the store refuses the subscription. *)
Lemma timer_fire_refused w t e tl :
  watching (svc w) = false ->
  timers (host w) = S t ->
  watchOutcomes (host w) = Some e :: tl ->
  exists w1 es,
    timer_fire w = MkRun (Ok tt) w1 es /\
    watching (svc w1) = false /\
    maxAttempts (svc w1) = maxAttempts (svc w) /\
    autoReconnect (cdcOptions (svc w1)) = autoReconnect (cdcOptions (svc w)) /\
    watchOutcomes (host w1) = tl /\
    length (watch_requests es) = 1%nat /\
    if shouldReconnect (svc w)
    then timers (host w1) = S t /\
         reconnectAttempts (svc w1) = reconnectAttempts (svc w) + 1 /\
         es <> []
    else timers (host w1) = t /\
         reconnectAttempts (svc w1) = reconnectAttempts (svc w) /\
         last es = Some (ELogger LError "Maximum reconnection attempts reached").
Proof.
  intros Hw Ht Ho. rewrite timer_fire_run, Ht, reconnect_resume_run. cbv zeta.
  cbn [timer_taken svc host]. rewrite Hw.
  cbn [set_timers watchOutcomes]. rewrite Ho. cbn [head].
  unfold resume_options, timer_taken. cbn [svc host].
  destruct (shouldReconnect (svc w)); destruct (resumeToken (svc w));
    eexists _, _; (split; [reflexivity|]); cbn; rewrite ?Ho, ?Ht, ?Hw;
    repeat split; discriminate.
Qed.

Lemma shouldReconnect_spec s :
  shouldReconnect s = true <->
  maxAttempts s = 0 \/ reconnectAttempts s < maxAttempts s.
Proof.
  unfold shouldReconnect, maxAttempts.
  now rewrite orb_true_iff, Z.eqb_eq, Z.ltb_lt.
Qed.




(** X9. When the reconnect timer fires on a service that is not watching
    and the store accepts the subscription, the service is watching
    again on a new stream, after exactly one [model.watch] call and
    without setting another timer, and its attempt counter is back at
    zero: the next outage gets the whole budget again. *)
Theorem reopen_success_restores_budget w t :
  isWatching w = false ->
  timers (host w) = S t ->
  (forall e, head (watchOutcomes (host w)) <> Some (Some e)) ->
  result (timer_fire w) = Ok tt /\
  isWatching (final (timer_fire w)) = true /\
  reconnectAttempts (svc (final (timer_fire w))) = 0 /\
  changeStream (svc (final (timer_fire w))) = Some (nextStream (host w)) /\
  timers (host (final (timer_fire w))) = t /\
  length (watch_requests (effects (timer_fire w))) = 1%nat /\
  timeouts (effects (timer_fire w)) = [].
Proof.
  unfold isWatching. intros Hw Ht Hok.
  rewrite timer_fire_run, Ht, reconnect_resume_run. cbv zeta.
  cbn [timer_taken svc host set_timers watchOutcomes]. rewrite Hw.
  destruct (head (watchOutcomes (host w))) as [[e|]|] eqn:E;
    [now destruct (Hok e)| |];
    unfold resume_options, timer_taken; cbn [svc host];
    destruct (resumeToken (svc w)); cbn; rewrite ?Ht; repeat split.
Qed.

Lemma reopen_success_restores_budget_witness :
  isWatching waitingWorld = false /\
  timers (host waitingWorld) = 1%nat /\
  reconnectAttempts (svc waitingWorld) = 1 /\
  isWatching (final (timer_fire waitingWorld)) = true /\
  reconnectAttempts (svc (final (timer_fire waitingWorld))) = 0.
Proof.
  do 3 (split; [reflexivity|]).
  destruct (reopen_success_restores_budget waitingWorld 0)
    as (_ & H1 & H2 & _);
    [reflexivity|reflexivity|intros e; discriminate|].
  split; [exact H1|exact H2].
Defined.

(** ** The resume position *)

(** X10. Only a notification that carries a token moves the resume
    position, and it moves it to that token, whatever the hooks and the
    handlers do afterwards. [start()], [stop()], the registry calls, an
    error, a close, a reconnect and a notification without a token all
    leave [getResumeToken()] as it was. *)
Theorem resume_position_moves_on_tokens_only env hooks sig w :
  getResumeToken (final (step env hooks sig w)) =
  match sig with
  | StreamChange change =>
      match raw_id change with
      | Some token => Some token
      | None => getResumeToken w
      end
  | _ => getResumeToken w
  end.
Proof.
  destruct (step_stable env hooks sig (getResumeToken w) (cdcOptions (svc w))
              (fun _ => True) (fun _ _ _ => I) (fun _ _ _ _ => I) w)
    as ((Hr & _) & _); [repeat split|].
  unfold getResumeToken in *. rewrite Hr.
  destruct sig; reflexivity.
Qed.

(** ** Hooks *)

(** X11. Every notification calls exactly one hook, once, with the event
    built from the notification, whether the hook, the handlers or the
    error path run after it. Which hook it is depends on the operation
    type alone: insert, update, replace and delete have their own, and
    every other type, also one the enumeration does not list, goes to
    [handleOther]. *)
Theorem one_hook_per_notification env hooks change w :
  hook_calls (effects (handleChange env hooks change w)) =
    [(hook_kind (raw_operationType change), toEvent change)] /\
  (hook_kind (raw_operationType change) = HOther <->
   raw_operationType change <> INSERT /\
   raw_operationType change <> UPDATE /\
   raw_operationType change <> REPLACE /\
   raw_operationType change <> DELETE).
Proof.
  split.
  - rewrite handleChange_run. cbv zeta. rewrite call_hook_run.
    cbn [result final effects].
    assert (Hlogs : forall hs l, hook_calls (unregister_logs hs l) = []).
    { intros hs l. apply (omap_nothing _ is_log);
        auto using is_log_no_hook, unregister_logs_are_logs. }
    unfold hook_calls in *.
    destruct (throws _) as [e|]; cbn [effects].
    + match goal with
      | |- context [handleError env e ?w0] =>
          destruct (handleError_shape env e w0) as (l & es & Hes & ->)
      end.
      cbn [effects].
      change ((?a :: ?l1) ++ ?b :: ?c :: ?l2 ++ ?l3)
        with ([a] ++ l1 ++ [b; c] ++ l2 ++ l3).
      rewrite !omap_app, Hlogs.
      rewrite (omap_nothing _ error_only es) by auto using error_only_no_hook.
      destruct (wants_reconnect _); reflexivity.
    + change ((?a :: ?l1) ++ ?l2) with ([a] ++ l1 ++ l2).
      rewrite !omap_app, Hlogs.
      rewrite (omap_nothing _ dispatch_only (effects _))
        by auto using dispatch_only_no_hook, notifyHandlers_dispatch_only.
      reflexivity.
  - destruct (raw_operationType change); cbn; split;
      first [discriminate | intros; repeat split; discriminate
            | intros (H1 & H2 & H3 & H4); congruence].
Qed.

(** ** The registry *)

Lemma filter_all {A} (P : A -> Prop) `{forall x, Decision (P x)} l :
  Forall P l -> filter P l = l.
Proof.
  induction 1 as [|x l Hx _ IH]; [reflexivity|].
  now rewrite filter_cons_True, IH.
Qed.

Lemma remove_first_filter h l :
  NoDup l -> remove_first h l = filter (fun x => x <> h) l.
Proof.
  induction 1 as [|x l Hx Hnd IH].
  - reflexivity.
  - rewrite remove_first_cons, filter_cons.
    destruct (decide (x = h)) as [->|Hne].
    + rewrite decide_False by auto.
      symmetry. apply filter_all, Forall_forall.
      intros y Hy ->. contradiction.
    + rewrite decide_True by exact Hne. now rewrite IH.
Qed.

Lemma with_handlers_twice l1 l2 w :
  with_handlers l1 (with_handlers l2 w) = with_handlers l1 w.
Proof. reflexivity. Qed.

(** X12. [unregisterHandler(h)] removes [h] and nothing else: the other
    handlers stay, in their order. For a handler that is not registered it
    does nothing at all, not even a log line; and unregistering right
    after registering a new handler gives back the service as it was. *)
Theorem unregister_removes_only_that_handler h w :
  NoDup (handlers (svc w)) ->
  handlers (svc (final (unregisterHandler h w))) =
    filter (fun x => x <> h) (handlers (svc w)) /\
  (h ∉ handlers (svc w) -> unregisterHandler h w = MkRun (Ok tt) w []) /\
  (h ∉ handlers (svc w) ->
   final (unregisterHandler h (final (registerHandler h w))) = w).
Proof.
  intros Hnd. split; [|split].
  - rewrite unregisterHandler_run. cbn [final with_handlers svc handlers].
    cbn. now apply remove_first_filter.
  - intros Hh. rewrite unregisterHandler_run.
    rewrite (remove_first_absent _ _ Hh), with_handlers_same.
    f_equal. unfold unregister_logs. cbn.
    rewrite (proj2 (indexOf_None _ _) Hh). reflexivity.
  - intros Hh. rewrite registerHandler_run.
    rewrite decide_False by exact Hh. cbn [final].
    rewrite unregisterHandler_run. cbn [final].
    rewrite with_handlers_twice. cbn [with_handlers svc handlers].
    cbn. rewrite (remove_first_app _ _ _ Hh).
    rewrite remove_first_cons, decide_True by reflexivity.
    rewrite app_nil_r. apply with_handlers_same.
Qed.

Lemma unregister_removes_only_that_handler_witness :
  NoDup (handlers (svc watchingWorld)) /\
  handlers (svc watchingWorld) = [0; 1; 2]%nat /\
  handlers (svc (final (unregisterHandler 1%nat watchingWorld))) = [0; 2]%nat /\
  final (unregisterHandler 7%nat (final (registerHandler 7%nat watchingWorld)))
    = watchingWorld.
Proof.
  assert (Hnd : NoDup (handlers (svc watchingWorld)))
    by (apply (bool_decide_unpack _); reflexivity).
  split; [exact Hnd|]. split; [reflexivity|].
  split.
  - destruct (unregister_removes_only_that_handler 1%nat watchingWorld Hnd)
      as (H1 & _).
    rewrite H1. reflexivity.
  - destruct (unregister_removes_only_that_handler 7%nat watchingWorld Hnd)
      as (_ & _ & H3).
    apply H3. apply (bool_decide_unpack _). reflexivity.
Defined.




(** ** Error and close fan-out *)

(** A loop whose turns leave the world as it is makes one turn per
    handler. *)
Lemma for_of_undisturbed body (turn : HandlerId -> list Effect) n i w :
  (length (handlers (svc w)) - i <= n)%nat ->
  (forall h, h ∈ handlers (svc w) -> body h w = MkRun (Ok tt) w (turn h)) ->
  for_of_handlers n i body w =
  MkRun (Ok tt) w (flat_map turn (drop i (handlers (svc w)))).
Proof.
  intros Hn Hb. revert i Hn. induction n as [|n IH]; intros i Hn; simpl.
  - rewrite drop_ge by lia. reflexivity.
  - destruct (handlers (svc w) !! i) as [h|] eqn:E.
    + unfold bind. rewrite (Hb h) by (eapply list_elem_of_lookup_2, E).
      rewrite IH by lia. rewrite (drop_S _ _ _ E). reflexivity.
    + apply lookup_ge_None in E. rewrite drop_ge by lia. reflexivity.
Qed.

Lemma call_onError_undisturbed env e w h :
  onError_undisturbed env e w -> h ∈ handlers (svc w) ->
  call_onError env h e w =
  MkRun (Ok tt) w (onError_turn env e (public_view w) h).
Proof.
  intros Hq Hh. unfold call_onError, onError_turn.
  destruct (onError (env h)) as [f|] eqn:E; [|reflexivity].
  unfold try_catch, bind, get_view, emit. rewrite run_reaction_run.
  rewrite (Hq h f Hh E). cbn. rewrite with_handlers_same.
  destruct (throws _); reflexivity.
Qed.


Lemma onError_turns env e v l :
  omap onError_with (flat_map (onError_turn env e v) l) =
  (fun h => (h, e)) <$> filter (fun h => is_Some (onError (env h))) l.
Proof.
  induction l as [|h l IH]; [reflexivity|].
  cbn [flat_map]. rewrite omap_app, IH, filter_cons. unfold onError_turn.
  destruct (onError (env h)) as [f|].
  - rewrite decide_True by eauto. destruct (throws _); reflexivity.
  - rewrite decide_False by (intros [? ?]; discriminate). reflexivity.
Qed.






(** ** A service built without auto-reconnect *)

Lemma callbacks_only_quiet es :
  Forall callbacks_only es ->
  timeouts es = [] /\ watch_requests es = [] /\ close_calls es = [].
Proof.
  intros H. repeat split;
    apply (omap_nothing _ callbacks_only); try exact H;
    intros []; simpl; tauto.
Qed.

Lemma callbacks_only_logs hs l : Forall callbacks_only (unregister_logs hs l).
Proof.
  eapply Forall_impl; [apply unregister_logs_are_logs|].
  intros []; simpl; tauto.
Qed.

Lemma callbacks_only_dispatch env ev w :
  Forall callbacks_only (effects (notifyHandlers env ev w)).
Proof.
  eapply Forall_impl; [apply notifyHandlers_dispatch_only|].
  intros []; simpl; tauto.
Qed.

(** The effects of a notification, up to the reconnect decision of its
    error path, and where it leaves the service. *)
Lemma handleChange_shape env hooks change w :
  exists l es,
    Forall callbacks_only es /\
    (handleChange env hooks change w =
       MkRun (Ok tt) (with_handlers l (store_token change w)) es \/
     handleChange env hooks change w =
       MkRun (Ok tt)
         (if wants_reconnect (svc w)
          then scheduled (with_handlers l (store_token change w))
          else with_handlers l (store_token change w))
         (es ++ (if wants_reconnect (svc w)
                 then reconnect_effects (store_token change w) else []))).
Proof.
  rewrite handleChange_run. cbv zeta. rewrite call_hook_run.
  cbn [result final effects].
  destruct (throws _) as [e|].
  - match goal with
    | |- context [handleError env e ?w0] =>
        destruct (handleError_shape env e w0) as (l & es & Hes & ->)
    end.
    cbn [result final effects].
    match goal with
    | |- context [MkRun _ _ (?pre ++ ?a :: ?b :: es ++ _)] =>
        exists l, (pre ++ [a; b] ++ es)
    end.
    split; [|right].
    + apply Forall_app. split.
      * constructor; [exact I|]. apply callbacks_only_logs.
      * do 2 (constructor; [exact I|]).
        eapply Forall_impl; [exact Hes|]. intros []; simpl; tauto.
    + rewrite <- !app_assoc. reflexivity.
  - unfold notifyHandlers at 1, for_of.
    match goal with
    | |- context [final (for_of_handlers ?n 0 ?b ?w0)] =>
        destruct (notify_loop_run env (toEvent change) n 0 w0)
          as (_ & _ & l & Hl);
        change b with (notify_body env (toEvent change));
        rewrite Hl
    end.
    eexists l, _. split; [|left; reflexivity].
    constructor; [exact I|]. apply Forall_app.
    split; [apply callbacks_only_logs|apply callbacks_only_dispatch].
Qed.

Lemma disabled_wants_nothing s :
  autoReconnect (cdcOptions s) = Some false -> wants_reconnect s = false.
Proof. unfold wants_reconnect. now intros ->. Qed.

Lemma step_disabled env hooks sig w :
  autoReconnect (cdcOptions (svc w)) = Some false ->
  timers (host w) = 0%nat ->
  autoReconnect (cdcOptions (svc (final (step env hooks sig w)))) =
    Some false /\
  timers (host (final (step env hooks sig w))) = 0%nat /\
  (reconnectAttempts (svc (final (step env hooks sig w))) =
     reconnectAttempts (svc w) \/
   reconnectAttempts (svc (final (step env hooks sig w))) = 0) /\
  timeouts (effects (step env hooks sig w)) = [] /\
  (length (watch_requests (effects (step env hooks sig w))) <= starts [sig])%nat.
Proof.
  intros Hoff Ht. pose proof (disabled_wants_nothing _ Hoff) as Hwant.
  assert (Hstop :
    autoReconnect (cdcOptions (svc (final (stop w)))) = Some false /\
    timers (host (final (stop w))) = 0%nat /\
    (reconnectAttempts (svc (final (stop w))) = reconnectAttempts (svc w) \/
     reconnectAttempts (svc (final (stop w))) = 0) /\
    timeouts (effects (stop w)) = [] /\
    (length (watch_requests (effects (stop w))) <= 0)%nat).
  { rewrite stop_run. destruct (negb _); [now repeat split; auto|].
    destruct (changeStream (svc w)); [destruct (head _) as [[e|]|]|];
      cbn; repeat split; auto. }
  destruct sig as [| |h|h| |change|e| |]; cbn [step starts].
  - rewrite start_run. destruct (watching (svc w)).
    + cbn. repeat split; auto.
    + destruct (head _) as [[e|]|]; cbn; repeat split; auto.
  - exact Hstop.
  - rewrite registerHandler_run. destruct (decide _); cbn; repeat split; auto.
  - rewrite unregisterHandler_run. cbn [final effects].
    destruct (callbacks_only_quiet _
                (callbacks_only_logs [h] (handlers (svc w))))
      as (H1 & H2 & _).
    rewrite H1, H2. cbn. repeat split; auto.
  - exact Hstop.
  - destruct (handleChange_shape env hooks change w)
      as (l & es & Hes & [-> | ->]);
      destruct (callbacks_only_quiet es Hes) as (H1 & H2 & _);
      rewrite ?Hwant; cbn [final effects]; rewrite ?app_nil_r, H1, H2;
      cbn; repeat split; auto.
  - destruct (handleError_shape env e w) as (l & es & Hes & ->).
    rewrite Hwant. cbn [final effects]. rewrite app_nil_r.
    assert (Hc : Forall callbacks_only (ELogger LError "CDC service error" :: es)).
    { constructor; [exact I|]. eapply Forall_impl; [exact Hes|].
      intros []; simpl; tauto. }
    destruct (callbacks_only_quiet _ Hc) as (H1 & H2 & _).
    rewrite H1, H2. cbn. repeat split; auto.
  - destruct (handleClose_shape env w) as (l & es & Hes & ->).
    rewrite Hwant. cbn [final effects]. rewrite app_nil_r.
    assert (Hc : Forall callbacks_only (ELogger LLog "Change stream closed" :: es)).
    { constructor; [exact I|]. eapply Forall_impl; [exact Hes|].
      intros []; simpl; tauto. }
    destruct (callbacks_only_quiet _ Hc) as (H1 & H2 & _).
    rewrite H1, H2. cbn. repeat split; auto.
  - rewrite timer_fire_run, Ht. cbn. repeat split; auto.
Qed.

(** X16. A service built with [autoReconnect: false] never schedules a
    reconnect, whatever its stream, its hooks and its handlers do: it
    sets no timer and counts no attempt, and it calls [model.watch] only
    from [start()], so at most once per [start()] call. *)
Theorem disabled_auto_reconnect_never_reopens
    env hooks options watches closes sigs :
  autoReconnect options = Some false ->
  let r := run env hooks sigs (newWorld options watches closes) in
  timeouts (effects r) = [] /\
  timers (host (final r)) = 0%nat /\
  reconnectAttempts (svc (final r)) = 0 /\
  (length (watch_requests (effects r)) <= starts sigs)%nat.
Proof.
  intros Hoff. cbv zeta.
  assert (Hgen : forall sigs w,
    autoReconnect (cdcOptions (svc w)) = Some false ->
    timers (host w) = 0%nat ->
    reconnectAttempts (svc w) = 0 ->
    timeouts (effects (run env hooks sigs w)) = [] /\
    timers (host (final (run env hooks sigs w))) = 0%nat /\
    reconnectAttempts (svc (final (run env hooks sigs w))) = 0 /\
    (length (watch_requests (effects (run env hooks sigs w))) <= starts sigs)%nat).
  { clear. induction sigs as [|sig sigs IH]; intros w Hoff Ht Ha.
    - cbn. repeat split; auto.
    - rewrite run_cons. cbv zeta. cbn [final effects].
      destruct (step_disabled env hooks sig w Hoff Ht)
        as (S1 & S2 & S3 & S4 & S5).
      destruct (IH (final (step env hooks sig w)) S1 S2) as (I1 & I2 & I3 & I4).
      { destruct S3 as [-> | ->]; [exact Ha|reflexivity]. }
      unfold timeouts, watch_requests in *.
      rewrite !omap_app, length_app, S4, I1.
      repeat split; try assumption.
      destruct sig; cbn [starts] in *; lia. }
  apply Hgen; [|reflexivity|reflexivity].
  cbn. now rewrite Hoff.
Qed.

Lemma disabled_auto_reconnect_never_reopens_witness :
  autoReconnect noReconnect = Some false /\
  timeouts (effects (run failingEnv failingHooks
    [CallStart; StreamChange testInsert; StreamError "Connection lost";
     StreamClose; TimerFire]
    (newWorld noReconnect [] []))) = [] /\
  (length (watch_requests (effects (run failingEnv failingHooks
    [CallStart; StreamChange testInsert; StreamError "Connection lost";
     StreamClose; TimerFire]
    (newWorld noReconnect [] [])))) <= 1)%nat.
Proof.
  split; [reflexivity|].
  destruct (disabled_auto_reconnect_never_reopens failingEnv failingHooks
              noReconnect [] []
              [CallStart; StreamChange testInsert;
               StreamError "Connection lost"; StreamClose; TimerFire]
              eq_refl) as (H1 & _ & _ & H2).
  split; [exact H1|exact H2].
Defined.

(** ** What a notification leaves alone *)

(** X17. Handling a notification never touches the subscription: hooks
    and handlers may throw or unregister, and the error path may run, but
    [watching], the stream held, the options and the store are left as
    they were, and neither [model.watch] nor [close()] is called. *)
Theorem notification_leaves_stream_alone env hooks change w :
  isWatching (final (handleChange env hooks change w)) = isWatching w /\
  changeStream (svc (final (handleChange env hooks change w))) =
    changeStream (svc w) /\
  cdcOptions (svc (final (handleChange env hooks change w))) =
    cdcOptions (svc w) /\
  watchOutcomes (host (final (handleChange env hooks change w))) =
    watchOutcomes (host w) /\
  closeOutcomes (host (final (handleChange env hooks change w))) =
    closeOutcomes (host w) /\
  nextStream (host (final (handleChange env hooks change w))) =
    nextStream (host w) /\
  watch_requests (effects (handleChange env hooks change w)) = [] /\
  close_calls (effects (handleChange env hooks change w)) = [].
Proof.
  destruct (handleChange_shape env hooks change w)
    as (l & es & Hes & [-> | ->]);
    destruct (callbacks_only_quiet es Hes) as (_ & H1 & H2);
    cbn [final effects]; unfold watch_requests, close_calls in *;
    rewrite ?omap_app, ?H1, ?H2;
    destruct (wants_reconnect (svc w)); repeat split.
Qed.

(** ** Reconnecting *)

(** X18. The whole reconnect, when the store lets the service back in: a
    close on a service with [autoReconnect] and budget left, followed by
    its timer, ends with the service watching again on a new stream,
    after exactly one [model.watch] call, with no timer pending and the
    attempt counter at zero. The handlers registered are the ones that
    were left after the [onClose] calls. *)
Theorem close_then_timer_reconnects env hooks w :
  wants_reconnect (svc w) = true ->
  timers (host w) = 0%nat ->
  (forall e, head (watchOutcomes (host w)) <> Some (Some e)) ->
  let r := run env hooks [StreamClose; TimerFire] w in
  isWatching (final r) = true /\
  changeStream (svc (final r)) = Some (nextStream (host w)) /\
  reconnectAttempts (svc (final r)) = 0 /\
  timers (host (final r)) = 0%nat /\
  length (watch_requests (effects r)) = 1%nat /\
  timeouts (effects r) = [orZ (reconnectDelay (cdcOptions (svc w))) 1000] /\
  handlers (svc (final r)) = handlers (svc (final (handleClose env w))).
Proof.
  intros Hwant Ht Hok. cbv zeta.
  rewrite !run_cons. cbv zeta. cbn [step result final effects run for_each ret].
  destruct (handleClose_shape env w) as (l & es & Hes & ->).
  rewrite Hwant. cbn [final effects].
  assert (Hc : Forall callbacks_only es).
  { eapply Forall_impl; [exact Hes|]. intros []; simpl; tauto. }
  destruct (callbacks_only_quiet es Hc) as (H1 & H2 & _).
  rewrite timer_fire_run. cbn [scheduled host set_timers timers].
  rewrite reconnect_resume_run. cbv zeta.
  cbn [timer_taken svc host set_timers watchOutcomes scheduled with_handlers
       closed set_reconnectAttempts set_handlers set_watching watching].
  destruct (head (watchOutcomes (host w))) as [[e|]|] eqn:E;
    [now destruct (Hok e)| |];
    unfold resume_options;
    destruct (resumeToken (svc w)) eqn:Er;
    cbn [final effects]; unfold timeouts, watch_requests in *;
    change (ELogger LLog "Change stream closed" :: ?a ++ ?b)
      with ([ELogger LLog "Change stream closed"] ++ a ++ b);
    rewrite !omap_app, H1, H2; cbn; rewrite ?Er; cbn; rewrite ?Ht;
    repeat split.
Qed.

(** Retrying without a limit: every refusal sets the next timer. *)
Lemma retry_forever env hooks e rest :
  forall k w,
    watching (svc w) = false ->
    timers (host w) = 1%nat ->
    maxAttempts (svc w) = 0 ->
    watchOutcomes (host w) = replicate k (Some e) ++ rest ->
    let r := run env hooks (replicate k TimerFire) w in
    length (watch_requests (effects r)) = k /\
    watching (svc (final r)) = false /\
    timers (host (final r)) = 1%nat /\
    reconnectAttempts (svc (final r)) =
      reconnectAttempts (svc w) + Z.of_nat k /\
    watchOutcomes (host (final r)) = rest.
Proof.
  induction k as [|k IH]; intros w Hw Ht Hmax Ho; cbv zeta.
  - cbn. rewrite Z.add_0_r. repeat split; assumption.
  - change (replicate (S k) TimerFire) with (TimerFire :: replicate k TimerFire).
    rewrite run_cons. cbv zeta. cbn [step].
    destruct (timer_fire_refused w 0 e _ Hw Ht Ho)
      as (w1 & es & -> & Hw1 & Hm1 & _ & Ho1 & Hreq & Hcase).
    cbn [result final effects].
    assert (Hs : shouldReconnect (svc w) = true)
      by (apply shouldReconnect_spec; now left).
    rewrite Hs in Hcase. destruct Hcase as (Ht1 & Ha1 & _).
    destruct (IH w1 Hw1 Ht1) as (I1 & I2 & I3 & I4 & I5);
      [congruence|exact Ho1|].
    unfold watch_requests in *. rewrite omap_app, length_app, Hreq, I1.
    repeat split; try assumption. lia.
Qed.

(** X19. A limit of 0 means no limit: with [autoReconnect] on and
    [maxReconnectAttempts] 0, a service whose stream closes keeps
    retrying for as long as the store refuses; after any number [k] of
    refusals it has made [k] attempts to reopen, has counted [k + 1]
    attempts, and has the next timer pending. *)
Theorem unlimited_reconnect_never_gives_up env hooks w k e rest :
  autoReconnect (cdcOptions (svc w)) = Some true ->
  maxAttempts (svc w) = 0 ->
  timers (host w) = 0%nat ->
  watchOutcomes (host w) = replicate k (Some e) ++ rest ->
  let r := run env hooks (StreamClose :: replicate k TimerFire) w in
  length (watch_requests (effects r)) = k /\
  isWatching (final r) = false /\
  timers (host (final r)) = 1%nat /\
  reconnectAttempts (svc (final r)) =
    reconnectAttempts (svc w) + 1 + Z.of_nat k.
Proof.
  intros Hauto Hmax Ht Ho. cbv zeta. rewrite run_cons. cbv zeta.
  cbn [step result final effects].
  assert (Hwant : wants_reconnect (svc w) = true).
  { apply wants_reconnect_spec. split; [exact Hauto|now left]. }
  destruct (handleClose_shape env w) as (l & es & Hes & Hrun).
  rewrite Hwant in Hrun.
  destruct (retry_forever env hooks e rest k (final (handleClose env w)))
    as (I1 & I2 & I3 & I4 & I5);
    try (rewrite Hrun; cbn;
         first [assumption | reflexivity | rewrite Ht; reflexivity]).
  assert (Hq : omap watch_request (effects (handleClose env w)) = []).
  { rewrite Hrun. cbn [effects].
    change (ELogger LLog "Change stream closed" :: es ++ ?t)
      with ([ELogger LLog "Change stream closed"] ++ es ++ t).
    rewrite !omap_app.
    rewrite (omap_nothing _ close_only es) by auto using close_only_no_watch.
    reflexivity. }
  unfold isWatching, watch_requests in *.
  rewrite omap_app, length_app, I1, Hq, I4.
  repeat split; try assumption.
  rewrite Hrun. cbn. lia.
Qed.

Lemma close_then_timer_reconnects_witness :
  wants_reconnect (svc watchingWorld) = true /\
  timers (host watchingWorld) = 0%nat /\
  isWatching (final (run plainEnv baseHooks [StreamClose; TimerFire]
                       watchingWorld)) = true /\
  changeStream (svc (final (run plainEnv baseHooks [StreamClose; TimerFire]
                              watchingWorld))) = Some 1%nat /\
  reconnectAttempts (svc (final (run plainEnv baseHooks
                                   [StreamClose; TimerFire] watchingWorld)))
    = 0.
Proof.
  do 2 (split; [reflexivity|]).
  destruct (close_then_timer_reconnects plainEnv baseHooks watchingWorld)
    as (H1 & H2 & H3 & _);
    [reflexivity|reflexivity|intros e; discriminate|].
  split; [exact H1|]. split; [exact H2|exact H3].
Defined.

Lemma unlimited_reconnect_never_gives_up_witness :
  autoReconnect (cdcOptions (svc (refusingWorld unlimitedOptions 7))) =
    Some true /\
  maxAttempts (svc (refusingWorld unlimitedOptions 7)) = 0 /\
  length (watch_requests (effects
    (run plainEnv baseHooks (StreamClose :: replicate 7 TimerFire)
       (refusingWorld unlimitedOptions 7)))) = 7%nat /\
  timers (host (final
    (run plainEnv baseHooks (StreamClose :: replicate 7 TimerFire)
       (refusingWorld unlimitedOptions 7)))) = 1%nat /\
  reconnectAttempts (svc (final
    (run plainEnv baseHooks (StreamClose :: replicate 7 TimerFire)
       (refusingWorld unlimitedOptions 7)))) = 8.
Proof.
  do 2 (split; [reflexivity|]).
  destruct (unlimited_reconnect_never_gives_up plainEnv baseHooks
              (refusingWorld unlimitedOptions 7) 7 "refused" [])
    as (H1 & _ & H2 & H3); try reflexivity.
  split; [exact H1|]. split; [exact H2|exact H3].
Defined.

(** ** Restarting by hand *)

Lemma step_requests env hooks sig w :
  sig <> TimerFire ->
  cdcOptions (svc (final (step env hooks sig w))) = cdcOptions (svc w) /\
  (watch_requests (effects (step env hooks sig w)) = [] \/
   watch_requests (effects (step env hooks sig w)) =
     [buildChangeStreamOptions (cdcOptions (svc w))]).
Proof.
  intros Hsig.
  assert (Hstop :
    cdcOptions (svc (final (stop w))) = cdcOptions (svc w) /\
    (watch_requests (effects (stop w)) = [] \/
     watch_requests (effects (stop w)) =
       [buildChangeStreamOptions (cdcOptions (svc w))])).
  { rewrite stop_run. destruct (negb _); [now split; [|left]|].
    destruct (changeStream (svc w)); [destruct (head _) as [[e|]|]|];
      cbn; split; auto. }
  assert (Hshape : forall l0 (w0 : World) es0 (b : bool) tail,
    Forall callbacks_only es0 ->
    cdcOptions (svc w0) = cdcOptions (svc w) ->
    cdcOptions (svc (if b then scheduled (with_handlers l0 w0)
                     else with_handlers l0 w0)) = cdcOptions (svc w) /\
    (watch_requests (es0 ++ (if b then reconnect_effects tail else [])) = [] \/
     watch_requests (es0 ++ (if b then reconnect_effects tail else [])) =
       [buildChangeStreamOptions (cdcOptions (svc w))])).
  { intros l0 w0 es0 b tail Hes0 Ho.
    destruct (callbacks_only_quiet es0 Hes0) as (_ & H2 & _).
    unfold watch_requests in *. rewrite omap_app, H2.
    destruct b; cbn; split; auto. }
  destruct sig as [| |h|h| |change|e| |]; cbn [step]; try exact Hstop.
  - rewrite start_run. destruct (watching (svc w)); [now split; [|left]|].
    destruct (head _) as [[e|]|]; cbn; split; auto.
  - rewrite registerHandler_run. destruct (decide _); cbn; split; auto.
  - rewrite unregisterHandler_run. cbn [final effects].
    destruct (callbacks_only_quiet _
                (callbacks_only_logs [h] (handlers (svc w))))
      as (_ & H2 & _).
    rewrite H2. split; auto.
  - destruct (handleChange_shape env hooks change w)
      as (l & es & Hes & [-> | ->]); cbn [final effects].
    + destruct (callbacks_only_quiet es Hes) as (_ & H2 & _).
      rewrite H2. split; auto.
    + now apply Hshape.
  - destruct (handleError_shape env e w) as (l & es & Hes & ->).
    cbn [final effects].
    apply (Hshape l w (ELogger LError "CDC service error" :: es));
      [|reflexivity].
    constructor; [exact I|]. eapply Forall_impl; [exact Hes|].
    intros []; simpl; tauto.
  - destruct (handleClose_shape env w) as (l & es & Hes & ->).
    cbn [final effects].
    apply (Hshape l (closed w) (ELogger LLog "Change stream closed" :: es));
      [|reflexivity].
    constructor; [exact I|]. eapply Forall_impl; [exact Hes|].
    intros []; simpl; tauto.
  - now destruct Hsig.
Qed.

(** X20. [start()] does not read the stored resume position. As long as no
    reconnect timer has fired, the options stay as they were, and every
    [model.watch] call, also the one of a [start()] that follows a
    [stop()] and any number of notifications, carries the same request as
    the first: the one built from the options alone. *)
Theorem manual_restart_repeats_first_request env hooks sigs w :
  Forall (fun sig => sig <> TimerFire) sigs ->
  cdcOptions (svc (final (run env hooks sigs w))) = cdcOptions (svc w) /\
  Forall (fun req => req = buildChangeStreamOptions (cdcOptions (svc w)))
    (watch_requests (effects (run env hooks sigs w))).
Proof.
  intros Hsigs. revert w.
  induction Hsigs as [|sig sigs Hsig _ IH]; intros w.
  - split; [reflexivity|constructor].
  - rewrite run_cons. cbv zeta. cbn [final effects].
    destruct (step_requests env hooks sig w Hsig) as (Ho & Hreq).
    destruct (IH (final (step env hooks sig w))) as (I1 & I2).
    rewrite Ho in I1, I2. split; [exact I1|].
    unfold watch_requests in *. rewrite omap_app. apply Forall_app.
    split; [|exact I2].
    destruct Hreq as [-> | ->]; repeat constructor.
Qed.

Lemma manual_restart_repeats_first_request_witness :
  Forall (fun sig => sig <> TimerFire)
    [CallStart; StreamChange testInsert; CallStop; CallStart] /\
  getResumeToken (final (run plainEnv baseHooks
    [CallStart; StreamChange testInsert; CallStop; CallStart] freshWorld)) =
    Some (tokenOf "token123") /\
  Forall (fun req => cso_resumeAfter req = None)
    (watch_requests (effects (run plainEnv baseHooks
       [CallStart; StreamChange testInsert; CallStop; CallStart]
       freshWorld))).
Proof.
  assert (Hs : Forall (fun sig => sig <> TimerFire)
    [CallStart; StreamChange testInsert; CallStop; CallStart])
    by (repeat constructor; discriminate).
  split; [exact Hs|]. split; [reflexivity|].
  destruct (manual_restart_repeats_first_request plainEnv baseHooks _
              freshWorld Hs) as (_ & H).
  eapply Forall_impl; [exact H|]. intros req ->. reflexivity.
Defined.

(** ** An error on a live stream *)

(** X21. The reconnect that an error schedules on a watching service
    reopens nothing: [handleError] leaves [watching] set, so when the
    timer fires [start()] returns at once. No [model.watch] call is made,
    the stream held is the old one and the service is still watching; the
    attempt that was counted stays counted, as no [start()] succeeded to
    reset it. *)
Theorem error_reconnect_is_spent_while_watching env hooks e w :
  isWatching w = true ->
  wants_reconnect (svc w) = true ->
  timers (host w) = 0%nat ->
  let r := run env hooks [StreamError e; TimerFire] w in
  watch_requests (effects r) = [] /\
  timeouts (effects r) = [orZ (reconnectDelay (cdcOptions (svc w))) 1000] /\
  isWatching (final r) = true /\
  changeStream (svc (final r)) = changeStream (svc w) /\
  reconnectAttempts (svc (final r)) = reconnectAttempts (svc w) + 1 /\
  timers (host (final r)) = 0%nat.
Proof.
  unfold isWatching. intros Hw Hwant Ht. cbv zeta.
  rewrite !run_cons. cbv zeta. cbn [step result final effects run for_each ret].
  destruct (handleError_shape env e w) as (l & es & Hes & ->).
  rewrite Hwant. cbn [final effects].
  assert (Hc : Forall callbacks_only es).
  { eapply Forall_impl; [exact Hes|]. intros []; simpl; tauto. }
  destruct (callbacks_only_quiet es Hc) as (H1 & H2 & _).
  rewrite timer_fire_run. cbn [scheduled host set_timers timers].
  rewrite reconnect_resume_run. cbv zeta.
  cbn [timer_taken svc host set_timers watchOutcomes scheduled with_handlers
       set_reconnectAttempts set_handlers watching].
  rewrite Hw. cbn [final effects].
  unfold resume_options, timeouts, watch_requests in *.
  change (ELogger LError "CDC service error" :: ?a ++ ?b)
    with ([ELogger LError "CDC service error"] ++ a ++ b).
  rewrite !omap_app, H1, H2.
  destruct (resumeToken (svc w)) eqn:Er; cbn; rewrite ?Er; cbn; rewrite ?Ht;
    repeat split; exact Hw.
Qed.

Lemma error_reconnect_is_spent_while_watching_witness :
  isWatching watchingWorld = true /\
  wants_reconnect (svc watchingWorld) = true /\
  watch_requests (effects (run plainEnv baseHooks
    [StreamError "Connection lost"; TimerFire] watchingWorld)) = [] /\
  reconnectAttempts (svc (final (run plainEnv baseHooks
    [StreamError "Connection lost"; TimerFire] watchingWorld))) = 1.
Proof.
  do 2 (split; [reflexivity|]).
  destruct (error_reconnect_is_spent_while_watching plainEnv baseHooks
              "Connection lost" watchingWorld)
    as (H1 & _ & _ & _ & H2 & _); try reflexivity.
  split; [exact H1|exact H2].
Defined.

(** * Dispatches in flight *)

(** ** The pieces of a dispatch *)

Lemma receive_run hooks change w :
  receive hooks change w =
  let hk := call_hook (hook_kind (raw_operationType change))
              (hook_for hooks (raw_operationType change)) (toEvent change)
              (store_token change w) in
  MkRun (Ok (match result hk with
             | Ok _ => Fanout (toEvent change) 0
             | Throw e => Failed e
             end))
    (final hk) (effects hk).
Proof.
  unfold receive. rewrite hook_selected. cbv zeta.
  change (operationType (toEvent change)) with (raw_operationType change).
  unfold try_catch, bind at 1. rewrite store_token_run.
  unfold bind at 1.
  destruct (call_hook _ _ _ _) as [[[]|e] w1 es1]; cbn [result final effects].
  - unfold ret. now rewrite app_nil_r.
  - unfold ret. now rewrite app_nil_r.
Qed.

Lemma resume_Fanout env ev i w :
  resume env (Fanout ev i) w =
  match handlers (svc w) !! i with
  | Some h =>
      MkRun (Ok (Some (Fanout ev (S i)))) (final (notify_body env ev h w))
        (effects (notify_body env ev h w))
  | None => MkRun (Ok None) w []
  end.
Proof.
  cbn [resume]. destruct (handlers (svc w) !! i) as [h|]; [|reflexivity].
  change (try_catch (call_onEvent env h ev)
            (fun _ => logger LError "Error in event handler"))
    with (notify_body env ev h).
  rewrite (bind_Ok _ _ w tt) by (now rewrite notify_body_run).
  cbn. now rewrite app_nil_r.
Qed.

Lemma resume_Failed env e w :
  resume env (Failed e) w =
  MkRun (Ok None) (final (handleError env e w))
    (ELogger LError "Error handling change event" ::
     effects (handleError env e w)).
Proof.
  cbn [resume].
  rewrite (bind_Ok (logger LError "Error handling change event") _ w tt
             eq_refl).
  cbn [result final effects logger emit].
  destruct (handleError_shape env e w) as (l & es & _ & Hrun).
  rewrite (bind_Ok _ _ w tt) by (now rewrite Hrun).
  cbn. now rewrite app_nil_r.
Qed.

(** ** The dispatch that nothing interrupts

    [handleChange] is the receipt of the notification followed by the
    pieces of its dispatch, with nothing in between. *)

Lemma resumes_idle env hooks n w :
  moves env hooks (replicate n (Resume 0)) (idle w) = (idle w, []).
Proof.
  induction n as [|n IH]; [reflexivity|].
  cbn [replicate moves move idle in_flight lookup]. cbn. now rewrite IH.
Qed.

Lemma fanout_resumed env hooks ev n i w :
  (length (handlers (svc w)) - i <= n)%nat ->
  moves env hooks (replicate (S n) (Resume 0))
    {| world := w; in_flight := [Fanout ev i] |} =
  (idle (final (for_of_handlers n i (notify_body env ev) w)),
   effects (for_of_handlers n i (notify_body env ev) w)).
Proof.
  revert i w. induction n as [|n IH]; intros i w Hn;
    change (replicate (S ?k) (Resume 0)) with (Resume 0 :: replicate k (Resume 0));
    cbn [moves move in_flight world]; cbn [lookup list_lookup];
    rewrite resume_Fanout.
  - rewrite (proj2 (lookup_ge_None (handlers (svc w)) i)) by lia.
    reflexivity.
  - cbn [for_of_handlers].
    destruct (handlers (svc w) !! i) as [h|] eqn:E; cbn [result final effects fst snd].
    + pose proof (notify_body_never_longer env ev h w) as Hlen.
      change (<[0%nat := ?p]> [?q]) with [p].
      rewrite (IH (S i) (final (notify_body env ev h w))) by lia.
      cbn [fst snd].
      rewrite (bind_Ok _ _ w tt) by (now rewrite notify_body_run).
      reflexivity.
    + change (delete 0%nat [?q]) with (@nil Pending).
      fold (idle w). rewrite resumes_idle. reflexivity.
Qed.

Lemma handleChange_uninterrupted env hooks change w :
  moves env hooks
    (Receive change :: replicate (S (length (handlers (svc w)))) (Resume 0))
    (idle w) =
  (idle (final (handleChange env hooks change w)),
   effects (handleChange env hooks change w)).
Proof.
  cbn [moves move idle world in_flight]. rewrite receive_run.
  rewrite handleChange_run. cbv zeta. rewrite call_hook_run.
  cbn [result final effects fst snd app].
  set (w1 := with_handlers _ (store_token change w)).
  assert (Hlen : (length (handlers (svc w1)) <= length (handlers (svc w)))%nat).
  { subst w1. cbn [with_handlers svc set_handlers handlers store_token].
    apply sublist_length, remove_all_sublist. }
  destruct (throws _) as [e|].
  - change (replicate (S ?k) (Resume 0))
      with (Resume 0 :: replicate k (Resume 0)).
    cbn [moves move in_flight world lookup list_lookup].
    rewrite resume_Failed. cbn [result final effects fst snd].
    change (delete 0%nat [?q]) with (@nil Pending).
    match goal with
    | |- context [moves env hooks ?ms {| world := ?w2; in_flight := [] |}] =>
        change {| world := w2; in_flight := [] |} with (idle w2)
    end.
    rewrite resumes_idle. cbn [fst snd].
    destruct (handleError env e w1) as [re we ese]. cbn.
    now rewrite app_nil_r.
  - rewrite (fanout_resumed env hooks (toEvent change)
               (length (handlers (svc w))) 0 w1) by lia.
    cbn [fst snd]. unfold notifyHandlers, for_of.
    change (fun handler : HandlerId =>
              try_catch (call_onEvent env handler (toEvent change))
                (fun _ => logger LError "Error in event handler"))
      with (notify_body env (toEvent change)).
    rewrite (for_of_budget_enough (notify_body env (toEvent change))
               (length (handlers (svc w1))) (length (handlers (svc w))) 0 w1)
      by (first [apply notify_body_never_longer | lia]).
    reflexivity.
Qed.

(** ** What a callback is shown, move by move *)

Lemma shows_logs r hs l : Forall (shows r) (unregister_logs hs l).
Proof.
  eapply Forall_impl; [apply unregister_logs_are_logs|].
  intros [] H; try contradiction. intros v Hv. discriminate Hv.
Qed.

Lemma receive_shows hooks change w :
  getResumeToken (final (receive hooks change w)) =
    after_token change (getResumeToken w) /\
  Forall (shows (after_token change (getResumeToken w)))
    (effects (receive hooks change w)).
Proof.
  rewrite receive_run. cbv zeta. rewrite call_hook_run.
  cbn [final effects]. split; [reflexivity|].
  constructor; [|apply shows_logs].
  intros v Hv. injection Hv as <-. reflexivity.
Qed.

Lemma resume_shows env p w :
  getResumeToken (final (resume env p w)) = getResumeToken w /\
  Forall (shows (getResumeToken w)) (effects (resume env p w)).
Proof.
  destruct p as [ev i|e].
  - rewrite resume_Fanout.
    destruct (handlers (svc w) !! i) as [h|]; [|split; [reflexivity|constructor]].
    rewrite notify_body_run. cbn [final effects]. split; [reflexivity|].
    constructor; [intros v Hv; injection Hv as <-; reflexivity|].
    apply Forall_app. split; [apply shows_logs|].
    destruct (throws _); repeat constructor. intros v Hv. discriminate Hv.
  - rewrite resume_Failed. cbn [final effects].
    destruct (stable_handleError env (getResumeToken w) (cdcOptions (svc w))
                (fun _ => True) (shows (getResumeToken w))) with (err := e)
                (w := w) as [[[Hr _] _] Hall];
      try solve [auto | shows_side | repeat split].
    split; [exact Hr|].
    constructor; [intros v Hv; discriminate Hv|exact Hall].
Qed.

Lemma move_shows env hooks m st :
  getResumeToken (world (fst (move env hooks m st))) =
    move_token m (getResumeToken (world st)) /\
  Forall (shows (move_token m (getResumeToken (world st))))
    (snd (move env hooks m st)).
Proof.
  destruct m as [change|k|sig]; cbn [move move_token].
  - cbn [fst snd world]. apply receive_shows.
  - destruct (in_flight st !! k) as [p|]; cbn [fst snd world].
    + apply resume_shows.
    + split; [reflexivity|constructor].
  - cbn [fst snd world]. rewrite deliver_run. cbn [final effects].
    destruct (step_stable env hooks sig (getResumeToken (world st))
                (cdcOptions (svc (world st))) (fun _ => True)
                (fun _ _ _ => I) (fun _ _ _ _ => I) (world st))
      as ((Hr & _) & Hall); [repeat split|].
    split; [exact Hr|exact Hall].
Qed.

Lemma brings_no_token_keeps m r : brings_no_token m -> move_token m r = r.
Proof.
  destruct m as [change|k|sig]; cbn [brings_no_token move_token];
    [unfold after_token; now intros ->|reflexivity|].
  destruct sig; cbn [signal_token]; try reflexivity.
  unfold after_token. now intros ->.
Qed.

(** Until the next token arrives, the resume position stays and every
    callback is shown it. *)
Lemma moves_show env hooks ms st :
  Forall brings_no_token ms ->
  getResumeToken (world (fst (moves env hooks ms st))) =
    getResumeToken (world st) /\
  Forall (shows (getResumeToken (world st))) (snd (moves env hooks ms st)).
Proof.
  intros Hms. revert st. induction Hms as [|m ms Hm _ IH]; intros st.
  - split; [reflexivity|constructor].
  - cbn [moves fst snd].
    destruct (move_shows env hooks m st) as (H1 & H2).
    rewrite (brings_no_token_keeps m _ Hm) in H1, H2.
    destruct (IH (fst (move env hooks m st))) as (H3 & H4).
    rewrite H1 in H3, H4. split; [exact H3|].
    apply Forall_app. split; assumption.
Qed.

(** ** The resume position and the callbacks *)

(** C1, as stated, fails. Two notifications arrive one after the other,
    before the dispatch of the first has gone past the [await] of its
    hook. Each hook is shown the token of its own notification. When the
    dispatch of the first goes on, handler 0 is given the first event
    while the resume position is already that of the second. *)
Lemma C1_first_dispatch_sees_second_token :
  snd (moves plainEnv baseHooks
         [Receive (insertOf "doc1" "token1");
          Receive (insertOf "doc2" "token2");
          Resume 0]
         (idle watchingWorld)) =
  [EHook HInsert (toEvent (insertOf "doc1" "token1"))
     {| view_watching := true; view_resumeToken := Some (tokenOf "token1") |};
   EHook HInsert (toEvent (insertOf "doc2" "token2"))
     {| view_watching := true; view_resumeToken := Some (tokenOf "token2") |};
   EOnEvent 0%nat (toEvent (insertOf "doc1" "token1"))
     {| view_watching := true; view_resumeToken := Some (tokenOf "token2") |}] /\
  raw_id (insertOf "doc1" "token1") = Some (tokenOf "token1") /\
  tokenOf "token1" <> tokenOf "token2" /\
  ~ (forall e v,
       e ∈ snd (moves plainEnv baseHooks
                  [Receive (insertOf "doc1" "token1");
                   Receive (insertOf "doc2" "token2");
                   Resume 0]
                  (idle watchingWorld)) ->
       callback_event e = Some (toEvent (insertOf "doc1" "token1")) ->
       callback_view e = Some v ->
       view_resumeToken v = Some (tokenOf "token1")).
Proof.
  split; [reflexivity|]. split; [reflexivity|]. split; [discriminate|].
  intros H.
  specialize (H (EOnEvent 0%nat (toEvent (insertOf "doc1" "token1"))
                   {| view_watching := true;
                      view_resumeToken := Some (tokenOf "token2") |})
                {| view_watching := true;
                   view_resumeToken := Some (tokenOf "token2") |}).
  assert (Hd : Some (tokenOf "token2") = Some (tokenOf "token1"));
    [|discriminate Hd].
  apply H; [|reflexivity|reflexivity].
  apply (list_elem_of_lookup_2 _ 2%nat). reflexivity.
Qed.

(** C1, amended. A notification that carries a token has it stored as
    soon as it is received, before anything else is done: the operation
    hook is the first thing called and is shown the token, and from then
    until the next notification with a token is received
    [getResumeToken()] returns it and every callback that is called is
    shown it, whichever dispatch calls it and whatever else happens in
    between (the dispatch going on after its [await]s, earlier dispatches
    going on, calls of the public methods, errors, closes, timers). *)
Theorem C1_token_stored_on_receipt env hooks change token rest st :
  raw_id change = Some token ->
  Forall brings_no_token rest ->
  getResumeToken
    (world (fst (moves env hooks (Receive change :: rest) st))) =
    Some token /\
  (forall e v,
     e ∈ snd (moves env hooks (Receive change :: rest) st) ->
     callback_view e = Some v -> view_resumeToken v = Some token) /\
  (exists tail,
     snd (moves env hooks (Receive change :: rest) st) =
     EHook (hook_kind (raw_operationType change)) (toEvent change)
       {| view_watching := isWatching (world st);
          view_resumeToken := Some token |}
     :: tail).
Proof.
  intros Hid Hrest. cbn [moves move fst snd world].
  destruct (receive_shows hooks change (world st)) as (H1 & H2).
  unfold after_token in H1, H2. rewrite Hid in H1, H2. cbn [orElse] in H1, H2.
  destruct (moves_show env hooks rest
              {| world := final (receive hooks change (world st));
                 in_flight :=
                   match result (receive hooks change (world st)) with
                   | Ok p => in_flight st ++ [p]
                   | Throw _ => in_flight st
                   end |} Hrest) as (H3 & H4).
  cbn [world] in H3, H4. rewrite H1 in H3, H4.
  split; [exact H3|]. split.
  - intros e v He Hv. apply elem_of_app in He as [He|He].
    + rewrite Forall_forall in H2. exact (H2 e He v Hv).
    + rewrite Forall_forall in H4. exact (H4 e He v Hv).
  - rewrite receive_run. cbv zeta. rewrite call_hook_run. cbn [effects].
    assert (Hv : public_view (store_token change (world st)) =
      {| view_watching := isWatching (world st);
         view_resumeToken := Some token |}).
    { unfold public_view, store_token, after_token. rewrite Hid. reflexivity. }
    rewrite Hv. eexists. reflexivity.
Qed.

Lemma C1_token_stored_witness :
  raw_id (insertOf "doc2" "token2") = Some (tokenOf "token2") /\
  Forall brings_no_token [Resume 0; Resume 1; Resume 0; Deliver CallStop] /\
  in_flight oneInFlight = [Fanout (toEvent (insertOf "doc1" "token1")) 0] /\
  getResumeToken
    (world (fst (moves failingEnv baseHooks
                   (Receive (insertOf "doc2" "token2") ::
                    [Resume 0; Resume 1; Resume 0; Deliver CallStop])
                   oneInFlight))) = Some (tokenOf "token2") /\
  (forall e v,
     e ∈ snd (moves failingEnv baseHooks
                (Receive (insertOf "doc2" "token2") ::
                 [Resume 0; Resume 1; Resume 0; Deliver CallStop])
                oneInFlight) ->
     callback_view e = Some v ->
     view_resumeToken v = Some (tokenOf "token2")).
Proof.
  split; [reflexivity|].
  assert (Hrest : Forall brings_no_token
                    [Resume 0; Resume 1; Resume 0; Deliver CallStop])
    by (repeat constructor).
  split; [exact Hrest|]. split; [reflexivity|].
  destruct (C1_token_stored_on_receipt failingEnv baseHooks
              (insertOf "doc2" "token2") (tokenOf "token2")
              [Resume 0; Resume 1; Resume 0; Deliver CallStop]
              oneInFlight eq_refl Hrest) as (H1 & H2 & _).
  split; [exact H1|exact H2].
Defined.

(** * The hook and the fan-out *)

(** [handleError] when no [onError] unregisters a handler: the line of
    the logger, one turn for every handler, then the reconnect
    decision. *)
Lemma handleError_undisturbed env e w :
  onError_undisturbed env e w ->
  handleError env e w =
  MkRun (Ok tt)
    (if wants_reconnect (svc w) then scheduled w else w)
    (ELogger LError "CDC service error" ::
     flat_map (onError_turn env e (public_view w)) (handlers (svc w)) ++
     (if wants_reconnect (svc w) then reconnect_effects w else [])).
Proof.
  intros Hq.
  assert (Hloop : for_of (fun handler => call_onError env handler e) w =
    MkRun (Ok tt) w
      (flat_map (onError_turn env e (public_view w)) (handlers (svc w)))).
  { unfold for_of.
    apply (for_of_undisturbed _ _ (length (handlers (svc w))) 0 w); [lia|].
    intros h Hh. now apply call_onError_undisturbed. }
  unfold handleError.
  rewrite (bind_Ok (logger LError "CDC service error") _ w tt eq_refl).
  cbn [result final effects logger emit].
  rewrite (bind_Ok _ _ w tt) by (now rewrite Hloop).
  rewrite Hloop. cbn [result final effects].
  rewrite reconnect_decision_run. reflexivity.
Qed.

(** C3, as stated, fails. A subclass whose insert hook throws: the three
    registered handlers get no [onEvent] for the notification; they get
    [onError]. *)
Lemma C3_hook_failure_skips_onEvent :
  handlers (svc watchingWorld) = [0; 1; 2]%nat /\
  throws (handleInsert failingHooks (toEvent testInsert)
            (public_view watchingWorld)) = Some "hook failed" /\
  onEvent_calls (effects (handleChange plainEnv failingHooks
                            testInsert watchingWorld)) = [] /\
  onError_calls (effects (handleChange plainEnv failingHooks
                            testInsert watchingWorld)) =
    [0; 1; 2]%nat /\
  ~ (forall h, h ∈ handlers (svc watchingWorld) ->
       h ∈ onEvent_calls (effects (handleChange plainEnv failingHooks
                                     testInsert watchingWorld))).
Proof.
  repeat split.
  intros H. specialize (H 0%nat ltac:(left)). inversion H.
Qed.

(** C3, amended. For a dispatch that nothing interrupts. When the
    operation hook returns normally, [handleChange] goes on to the
    fan-out: provided neither the hook nor an [onEvent] unregisters a
    handler during the dispatch, the dispatch consists of the hook call
    followed by [onEvent] on every registered handler in registration
    order, one after the other. When the hook throws, no handler receives
    [onEvent] for that notification: the failure is logged and handed to
    [handleError], and, provided neither the hook nor an [onError]
    unregisters a handler, every registered handler that has [onError]
    receives it, with the error of the hook, in registration order. *)
Theorem C3_fan_out_follows_hook_that_returns env hooks change w :
  (throws (hook_for hooks (raw_operationType change) (toEvent change)
             (public_view (store_token change w))) = None ->
   unregisters (hook_for hooks (raw_operationType change) (toEvent change)
                  (public_view (store_token change w))) = [] ->
   undisturbed env (toEvent change) (store_token change w) ->
   handleChange env hooks change w =
     MkRun (Ok tt) (store_token change w)
       (EHook (hook_kind (raw_operationType change)) (toEvent change)
          (public_view (store_token change w)) ::
        flat_map (onEvent_turn env (toEvent change)
                    (public_view (store_token change w)))
          (handlers (svc w))) /\
   onEvent_calls (effects (handleChange env hooks change w)) =
     handlers (svc w)) /\
  (forall e,
   throws (hook_for hooks (raw_operationType change) (toEvent change)
             (public_view (store_token change w))) = Some e ->
   onEvent_calls (effects (handleChange env hooks change w)) = [] /\
   ELogger LError "Error handling change event"
     ∈ effects (handleChange env hooks change w) /\
   ELogger LError "CDC service error"
     ∈ effects (handleChange env hooks change w) /\
   (unregisters (hook_for hooks (raw_operationType change) (toEvent change)
                   (public_view (store_token change w))) = [] ->
    onError_undisturbed env e (store_token change w) ->
    omap onError_with (effects (handleChange env hooks change w)) =
      (fun h => (h, e)) <$>
        filter (fun h => is_Some (onError (env h))) (handlers (svc w)))).
Proof.
  split.
  - intros Hthrows Hunreg Hq.
    assert (E : handleChange env hooks change w =
      MkRun (Ok tt) (store_token change w)
       (EHook (hook_kind (raw_operationType change)) (toEvent change)
          (public_view (store_token change w)) ::
        flat_map (onEvent_turn env (toEvent change)
                    (public_view (store_token change w)))
          (handlers (svc w)))).
    { rewrite handleChange_run. cbv zeta. rewrite call_hook_run.
      rewrite Hthrows, Hunreg. cbn [result final effects unregister_logs].
      change (remove_all [] ?l) with l.
      rewrite with_handlers_same, (notifyHandlers_undisturbed _ _ _ Hq).
      reflexivity. }
    split; [exact E|]. rewrite E. cbn [effects].
    change (onEvent_calls (EHook ?k ?ev ?v :: ?es)) with (onEvent_calls es).
    apply onEvent_calls_turns.
  - intros e Hthrows.
    rewrite handleChange_run. cbv zeta. rewrite call_hook_run.
    rewrite Hthrows. cbn [result final effects].
    destruct (handleError_first env e
      (with_handlers
         (remove_all
            (unregisters
               (hook_for hooks (raw_operationType change) (toEvent change)
                  (public_view (store_token change w))))
            (handlers (svc (store_token change w))))
         (store_token change w))) as [rest Hrest].
    split; [|split; [|split]].
    + rewrite onEvent_calls_app.
      change (onEvent_calls (EHook ?k ?ev ?v :: ?es)) with (onEvent_calls es).
      rewrite onEvent_calls_unregister_logs.
      change (onEvent_calls (ELogger ?l ?m :: ?es)) with (onEvent_calls es).
      apply handleError_no_onEvent.
    + apply elem_of_app. right. left.
    + apply elem_of_app. right. right. rewrite Hrest. left.
    + intros Hunreg Hq. rewrite Hunreg.
      change (remove_all [] ?l) with l. rewrite with_handlers_same.
      rewrite (handleError_undisturbed env e _ Hq). cbn [effects].
      change ((?a :: unregister_logs [] ?l0) ++ ?b :: ?c :: ?l1 ++ ?l2)
        with ([a; b; c] ++ l1 ++ l2).
      rewrite !omap_app, onError_turns.
      destruct (wants_reconnect _); cbn; now rewrite app_nil_r.
Qed.

Lemma C3_fan_out_witness :
  throws (hook_for baseHooks INSERT (toEvent testInsert)
            (public_view (store_token testInsert watchingWorld)))
    = None /\
  unregisters (hook_for baseHooks INSERT (toEvent testInsert)
            (public_view (store_token testInsert watchingWorld)))
    = [] /\
  undisturbed plainEnv (toEvent testInsert)
    (store_token testInsert watchingWorld) /\
  onEvent_calls (effects (handleChange plainEnv baseHooks
                            testInsert watchingWorld)) =
    [0; 1; 2]%nat /\
  throws (hook_for failingHooks INSERT (toEvent testInsert)
            (public_view (store_token testInsert watchingWorld)))
    = Some "hook failed" /\
  onEvent_calls (effects (handleChange partialEnv failingHooks
                            testInsert watchingWorld)) = [] /\
  onError_undisturbed partialEnv "hook failed"
    (store_token testInsert watchingWorld) /\
  omap onError_with (effects (handleChange partialEnv failingHooks
                                testInsert watchingWorld)) =
    [(0%nat, "hook failed"); (2%nat, "hook failed")].
Proof.
  split; [reflexivity|]. split; [reflexivity|].
  split; [apply plainEnv_undisturbed|]. split.
  - destruct (C3_fan_out_follows_hook_that_returns plainEnv baseHooks
                testInsert watchingWorld) as [H _].
    apply H; [reflexivity|reflexivity|apply plainEnv_undisturbed].
  - split; [reflexivity|].
    destruct (C3_fan_out_follows_hook_that_returns partialEnv failingHooks
                testInsert watchingWorld) as [_ H].
    destruct (H "hook failed" eq_refl) as (H1 & _ & _ & H2).
    split; [exact H1|].
    assert (Hq : onError_undisturbed partialEnv "hook failed"
                   (store_token testInsert watchingWorld)).
    { intros h f _ E. destruct h as [|[|h]]; cbn in E;
        [injection E as <-|discriminate E|injection E as <-]; reflexivity. }
    split; [exact Hq|].
    rewrite (H2 eq_refl Hq). reflexivity.
Defined.
